(** * Webhook payload builder and validator (src/task_4/implementation-examples.py)

    A shallow embedding of [WebhookPayloadBuilder] and [WebhookValidator]:
    Python values as an inductive type whose dictionaries keep their insertion
    order, exceptions as an error monad, the validator's [processed_requests]
    set as explicit state, and the clock and the random identifiers as explicit
    inputs.  The library functions the code calls ([json.dumps], [hmac],
    [hashlib.sha256], [base64], [datetime], [round], [int]) are modelled next
    to it so that every definition evaluates. *)

From Stdlib Require Import ZArith List String Ascii Bool Lia.
From Stdlib Require Import Floats.SpecFloat.
Import ListNotations.

Local Open Scope string_scope.
Local Open Scope Z_scope.

Set Warnings "-register-all".

(** ** Python values and exceptions *)

(** The values a decoded JSON document can hold.  A [dict] is an association
    list: Python dictionaries iterate in insertion order, and [json.dumps]
    writes them in that order. *)
Inductive value : Type :=
| VNone : value
| VBool : bool -> value
| VInt : Z -> value
| VFloat : spec_float -> value
| VStr : string -> value
| VList : list value -> value
| VDict : list (string * value) -> value.

Inductive exn : Type :=
| KeyError : string -> exn
| TypeError : exn
| AttributeError : exn
| ValueError : exn
| OverflowError : exn.

Inductive result (A : Type) : Type :=
| Ok : A -> result A
| Raise : exn -> result A.

Arguments Ok {A} _.
Arguments Raise {A} _.

Definition bind {A B : Type} (m : result A) (k : A -> result B) : result B :=
  match m with
  | Ok a => k a
  | Raise e => Raise e
  end.

Notation "x <- m ;; k" := (bind m (fun x => k))
  (at level 61, m at next level, right associativity).

Definition is_ok {A : Type} (m : result A) : bool :=
  match m with Ok _ => true | Raise _ => false end.

(** ** Dictionaries *)

Definition dict : Type := list (string * value).

(** [d.get(k)] *)
Fixpoint dict_get (k : string) (d : dict) : option value :=
  match d with
  | [] => None
  | (k', v) :: r => if String.eqb k k' then Some v else dict_get k r
  end.

(** [k in d] *)
Definition dict_mem (k : string) (d : dict) : bool :=
  match dict_get k d with Some _ => true | None => false end.

(** [d[k] = v]: an existing key keeps its position, a new key goes last. *)
Fixpoint dict_set (k : string) (v : value) (d : dict) : dict :=
  match d with
  | [] => [(k, v)]
  | (k', v') :: r =>
      if String.eqb k k' then (k', v) :: r else (k', v') :: dict_set k v r
  end.

(** [d.pop(k, None)] on a copy: the other items, in their order. *)
Definition dict_pop (k : string) (d : dict) : dict :=
  filter (fun kv => negb (String.eqb k (fst kv))) d.

(** [d[k]] *)
Definition dict_index (k : string) (d : dict) : result value :=
  match dict_get k d with
  | Some v => Ok v
  | None => Raise (KeyError k)
  end.

Definition dict_keys (d : dict) : list string := map fst d.

(** A well-formed dictionary holds each key once. *)
Definition dict_wf (d : dict) : Prop := NoDup (dict_keys d).

(** ** Strings *)

Definition str_mem (k : string) (l : list string) : bool :=
  existsb (String.eqb k) l.

(** [s.replace(old, new)]: every non-overlapping occurrence, left to right.
    [skip] counts the characters of an occurrence still to be dropped. *)
Fixpoint replace_from (old new : string) (skip : nat) (s : string) : string :=
  match s with
  | EmptyString => EmptyString
  | String c r =>
      match skip with
      | S n => replace_from old new n r
      | O =>
          if String.prefix old s
          then new ++ replace_from old new (Nat.pred (String.length old)) r
          else String c (replace_from old new O r)
      end
  end.

(** Python inserts [new] between all characters when [old] is empty; the
    code never replaces an empty pattern, so that case is left as the
    identity. *)
Definition str_replace (old new s : string) : string :=
  match old with
  | EmptyString => s
  | _ => replace_from old new O s
  end.

(** [sub in s] for strings *)
Fixpoint str_contains (sub s : string) : bool :=
  if String.prefix sub s then true
  else match s with
       | EmptyString => false
       | String _ r => str_contains sub r
       end.

(** [s[:n]] *)
Fixpoint str_take (n : nat) (s : string) : string :=
  match n, s with
  | S m, String c r => String c (str_take m r)
  | _, _ => EmptyString
  end.

Fixpoint str_drop (n : nat) (s : string) : string :=
  match n, s with
  | S m, String _ r => str_drop m r
  | _, _ => s
  end.

Definition code (c : ascii) : Z := Z.of_N (N_of_ascii c).
Definition chr (n : Z) : ascii := ascii_of_N (Z.to_N n).

Definition is_ascii_char (c : ascii) : bool := code c <? 128.

Fixpoint str_forall (p : ascii -> bool) (s : string) : bool :=
  match s with
  | EmptyString => true
  | String c r => p c && str_forall p r
  end.

Definition str_join (sep : string) (l : list string) : string :=
  match l with
  | [] => ""
  | x :: r => fold_left (fun acc y => acc ++ sep ++ y) r x
  end.

(** ** Integers in decimal *)

Definition digit_char (d : Z) : ascii := chr (48 + d).

Fixpoint digits_acc (fuel : nat) (n : Z) (acc : string) : string :=
  match fuel with
  | O => acc
  | S f =>
      let acc' := String (digit_char (n mod 10)) acc in
      if n <? 10 then acc' else digits_acc f (n / 10) acc'
  end.

(** [str(n)] for [0 <= n] *)
Definition str_of_nonneg (n : Z) : string :=
  digits_acc (S (Z.to_nat (Z.log2 n))) n EmptyString.

(** [str(n)] *)
Definition str_of_Z (n : Z) : string :=
  if n <? 0 then String "-" (str_of_nonneg (- n)) else str_of_nonneg n.

(** ["%0kd" % n]: the low [k] decimal digits of [n], in front of [rest]. *)
Fixpoint zfill (k : nat) (n : Z) (rest : string) : string :=
  match k with
  | O => rest
  | S k' => zfill k' (n / 10) (String (digit_char (n mod 10)) rest)
  end.

Definition is_digit (c : ascii) : bool := (48 <=? code c) && (code c <=? 57).

Definition digit_val (c : ascii) : Z := code c - 48.

(** Exactly [k] decimal digits at the head of [s]. *)
Fixpoint parse_digits (k : nat) (acc : Z) (s : string) : option (Z * string) :=
  match k with
  | O => Some (acc, s)
  | S k' =>
      match s with
      | String c r =>
          if is_digit c then parse_digits k' (10 * acc + digit_val c) r else None
      | EmptyString => None
      end
  end.

(** ** Floats: IEEE 754 binary64, as Python's [float] *)

Definition prec : Z := 53.
Definition emax : Z := 1024.

(** The double nearest to [n / d] (for [0 < d]): how a decimal literal such
    as [0.7] is read. *)
Definition float_ratio (n d : Z) : spec_float :=
  match n with
  | Z0 => S754_zero false
  | Zpos p => SFdiv prec emax (S754_finite false p 0) (S754_finite false (Z.to_pos d) 0)
  | Zneg p => SFdiv prec emax (S754_finite true p 0) (S754_finite false (Z.to_pos d) 0)
  end.

(** [f ? n], compared exactly as Python compares a float with an int;
    [None] when [f] is a NaN. *)
Definition float_cmp_Z (f : spec_float) (n : Z) : option comparison :=
  match f with
  | S754_nan => None
  | S754_infinity s => Some (if s then Lt else Gt)
  | S754_zero _ => Some (0 ?= n)
  | S754_finite s m e =>
      let v := cond_Zopp s (Zpos m) in
      if 0 <=? e then Some (v * 2 ^ e ?= n) else Some (v ?= n * 2 ^ (- e))
  end.

(** The integer part of a finite float, towards zero. *)
Definition float_trunc (f : spec_float) : option Z :=
  match f with
  | S754_zero _ => Some 0
  | S754_finite s m e => Some (cond_Zopp s (Z.shiftl (Zpos m) e))
  | _ => None
  end.

(** The integer nearest to [n / d] (for [0 < d]), ties to even. *)
Definition round_half_even (n d : Z) : Z :=
  let q := n / d in
  match 2 * (n mod d) ?= d with
  | Lt => q
  | Gt => q + 1
  | Eq => if Z.even q then q else q + 1
  end.

(** [round(f, 2)] on a float: the exact value is rounded to hundredths, ties
    to even, and the double nearest to that decimal is returned. *)
Definition float_round2 (f : spec_float) : spec_float :=
  match f with
  | S754_finite s m e =>
      if 0 <=? e then f
      else
        let k := round_half_even (100 * Zpos m) (2 ^ (- e)) in
        if k =? 0 then S754_zero s
        else SFdiv prec emax (S754_finite s (Z.to_pos k) 0) (S754_finite false 100 0)
  | _ => f
  end.

Definition Z_of_bool (b : bool) : Z := if b then 1 else 0.

(** [v >= c] against a float constant *)
Definition py_ge_float (v : value) (c : spec_float) : result bool :=
  let of_int n :=
    match float_cmp_Z c n with
    | Some Lt | Some Eq => true
    | _ => false
    end in
  match v with
  | VBool b => Ok (of_int (Z_of_bool b))
  | VInt n => Ok (of_int n)
  | VFloat f =>
      Ok match SFcompare f c with
         | Some Gt | Some Eq => true
         | _ => false
         end
  | _ => Raise TypeError
  end.

(** [round(v, 2)] *)
Definition py_round2 (v : value) : result value :=
  match v with
  | VBool b => Ok (VInt (Z_of_bool b))
  | VInt n => Ok (VInt n)
  | VFloat f => Ok (VFloat (float_round2 f))
  | _ => Raise TypeError
  end.

(** Whitespace that [int] strips around a numeral. *)
Definition is_space (c : ascii) : bool :=
  let n := code c in
  ((9 <=? n) && (n <=? 13)) || ((28 <=? n) && (n <=? 32)) || (n =? 133) || (n =? 160).

Fixpoint lstrip (s : string) : string :=
  match s with
  | String c r => if is_space c then lstrip r else s
  | EmptyString => s
  end.

(** Digits, each optionally preceded by one underscore after the first,
    up to trailing whitespace.  [started] says a digit was just read. *)
Fixpoint int_digits (started : bool) (acc : Z) (s : string) : option Z :=
  match s with
  | EmptyString => if started then Some acc else None
  | String c r =>
      if is_digit c then int_digits true (10 * acc + digit_val c) r
      else if (code c =? 95) && started then
        match r with
        | String c' _ => if is_digit c' then int_digits false acc r else None
        | EmptyString => None
        end
      else if started && str_forall is_space s then Some acc
      else None
  end.

(** [int(s)] for a string, base ten. *)
Definition int_of_str (s : string) : option Z :=
  match lstrip s with
  | String "-" r => option_map Z.opp (int_digits false 0 r)
  | String "+" r => int_digits false 0 r
  | t => int_digits false 0 t
  end.

(** [int(v)] *)
Definition py_int (v : value) : result Z :=
  match v with
  | VBool b => Ok (Z_of_bool b)
  | VInt n => Ok n
  | VFloat S754_nan => Raise ValueError
  | VFloat (S754_infinity _) => Raise OverflowError
  | VFloat f => match float_trunc f with Some n => Ok n | None => Raise ValueError end
  | VStr s => match int_of_str s with Some n => Ok n | None => Raise ValueError end
  | _ => Raise TypeError
  end.

(** [bool(v)] *)
Definition truthy (v : value) : bool :=
  match v with
  | VNone => false
  | VBool b => b
  | VInt n => negb (n =? 0)
  | VFloat (S754_zero _) => false
  | VFloat _ => true
  | VStr s => negb (String.eqb s EmptyString)
  | VList l => match l with [] => false | _ => true end
  | VDict d => match d with [] => false | _ => true end
  end.

(** ** [repr] of a float: the shortest decimal that reads back *)

Fixpoint ndigits_acc (fuel : nat) (n : Z) : Z :=
  match fuel with
  | O => 0
  | S f => if n <? 10 then 1 else 1 + ndigits_acc f (n / 10)
  end.

(** The number of decimal digits of [n], for [0 < n]. *)
Definition ndigits10 (n : Z) : Z := ndigits_acc (S (Z.to_nat (Z.log2 n))) n.

(** The [p] with [10^(p-1) <= num/den < 10^p], for positive [num], [den]. *)
Definition decimal_point (num den : Z) : Z :=
  if den <=? num then ndigits10 (num / den)
  else 1 - ndigits10 ((den - 1) / num).

(** [num/den * 10^k] as a fraction *)
Definition scale10 (num den k : Z) : Z * Z :=
  if 0 <=? k then (num * 10 ^ k, den) else (num, den * 10 ^ (- k)).

(** Among the two [n]-digit decimals around [num/den], the nearer one that
    is read back as [x]. *)
Definition short_candidate (x : spec_float) (num den p n : Z) : option Z :=
  let '(a, b) := scale10 num den (n - p) in
  let lo := a / b in
  let reads_back D :=
    let '(u, v) := scale10 D 1 (p - n) in
    match SFcompare (float_ratio u v) x with
    | Some Eq => true
    | _ => false
    end in
  let pick D1 D2 :=
    if reads_back D1 then Some D1
    else if reads_back D2 then Some D2 else None in
  match 2 * (a mod b) ?= b with
  | Lt => pick lo (lo + 1)
  | Gt => pick (lo + 1) lo
  | Eq => if Z.even lo then pick lo (lo + 1) else pick (lo + 1) lo
  end.

Fixpoint shortest_digits (fuel : nat) (x : spec_float) (num den p n : Z) : Z * Z :=
  match fuel with
  | O => let '(a, b) := scale10 num den (n - p) in (round_half_even a b, n)
  | S f =>
      match short_candidate x num den p n with
      | Some D => (D, n)
      | None => shortest_digits f x num den p (n + 1)
      end
  end.

Fixpoint rstrip_zeros (s : string) : string :=
  match s with
  | EmptyString => EmptyString
  | String c r =>
      let r' := rstrip_zeros r in
      if (code c =? 48) && String.eqb r' EmptyString then EmptyString
      else String c r'
  end.

Definition zeros (k : Z) : string := zfill (Z.to_nat k) 0 EmptyString.

(** The digits and the position of the decimal point of [repr], for a
    positive finite [m * 2^e]. *)
Definition repr_digits (m : positive) (e : Z) : string * Z :=
  let '(num, den) :=
    if 0 <=? e then (Zpos m * 2 ^ e, 1) else (Zpos m, 2 ^ (- e)) in
  let p := decimal_point num den in
  let '(D, n) := shortest_digits 16 (S754_finite false m e) num den p 1 in
  let ds := str_of_nonneg D in
  (rstrip_zeros ds, p + (Z.of_nat (String.length ds) - n)).

Definition repr_layout (ds : string) (decpt : Z) : string :=
  let len := Z.of_nat (String.length ds) in
  if (decpt <=? -4) || (16 <? decpt) then
    let x := decpt - 1 in
    let frac := str_drop 1 ds in
    str_take 1 ds
    ++ (if String.eqb frac EmptyString then EmptyString else String "." frac)
    ++ String "e" (String (if x <? 0 then "-" else "+")
         (if Z.abs x <? 10 then String "0" (str_of_nonneg (Z.abs x))
          else str_of_nonneg (Z.abs x)))
  else if decpt <=? 0 then "0." ++ zeros (- decpt) ++ ds
  else if decpt <? len then
    str_take (Z.to_nat decpt) ds ++ String "." (str_drop (Z.to_nat decpt) ds)
  else ds ++ zeros (decpt - len) ++ ".0".

(** [repr(f)] *)
Definition float_repr (f : spec_float) : string :=
  match f with
  | S754_nan => "nan"
  | S754_infinity s => if s then "-inf" else "inf"
  | S754_zero s => if s then "-0.0" else "0.0"
  | S754_finite s m e =>
      let '(ds, decpt) := repr_digits m e in
      (if s then "-" else EmptyString) ++ repr_layout ds decpt
  end.

(** ** Equality and hashing *)

Definition as_number (v : value) : option (Z + spec_float) :=
  match v with
  | VBool b => Some (inl (Z_of_bool b))
  | VInt n => Some (inl n)
  | VFloat f => Some (inr f)
  | _ => None
  end.

Definition is_Eq (c : option comparison) : bool :=
  match c with Some Eq => true | _ => false end.

Definition num_eq (a b : Z + spec_float) : bool :=
  match a, b with
  | inl m, inl n => m =? n
  | inl n, inr f | inr f, inl n => is_Eq (float_cmp_Z f n)
  | inr f, inr g => is_Eq (SFcompare f g)
  end.

(** [a == b]: numbers by value across [bool], [int] and [float], lists
    elementwise, dictionaries whatever the order of their keys. *)
Fixpoint py_eq (a b : value) : bool :=
  match a, b with
  | VNone, VNone => true
  | VStr s, VStr t => String.eqb s t
  | VList l1, VList l2 =>
      (fix go (l1 l2 : list value) : bool :=
         match l1, l2 with
         | [], [] => true
         | x :: r1, y :: r2 => py_eq x y && go r1 r2
         | _, _ => false
         end) l1 l2
  | VDict d1, VDict d2 =>
      Nat.eqb (List.length d1) (List.length d2)
      && (fix all (d : dict) : bool :=
            match d with
            | [] => true
            | (k, v) :: r =>
                match dict_get k d2 with
                | Some w => py_eq v w
                | None => false
                end && all r
            end) d1
  | _, _ =>
      match as_number a, as_number b with
      | Some x, Some y => num_eq x y
      | _, _ => false
      end
  end.

(** Lists and dictionaries cannot be members of a set. *)
Definition hashable (v : value) : bool :=
  match v with
  | VList _ | VDict _ => false
  | _ => true
  end.

(** ** [json.dumps(v, separators=(',', ':'))] *)

Definition hex_char (n : Z) : ascii :=
  if n <? 10 then chr (48 + n) else chr (87 + n).

(** One character of a string literal, [ensure_ascii] being on. *)
Definition json_escape_char (c : ascii) : string :=
  let n := code c in
  let bs (x : ascii) := String "\" (String x EmptyString) in
  if n =? 34 then bs "034"%char
  else if n =? 92 then bs "\"%char
  else if n =? 10 then bs "n"%char
  else if n =? 13 then bs "r"%char
  else if n =? 9 then bs "t"%char
  else if n =? 8 then bs "b"%char
  else if n =? 12 then bs "f"%char
  else if (32 <=? n) && (n <=? 126) then String c EmptyString
  else "\u00" ++ String (hex_char (n / 16)) (String (hex_char (n mod 16)) EmptyString).

Fixpoint json_escape (s : string) : string :=
  match s with
  | EmptyString => EmptyString
  | String c r => json_escape_char c ++ json_escape r
  end.

Definition json_str (s : string) : string :=
  String "034" (json_escape s ++ String "034" EmptyString).

Definition json_floatstr (f : spec_float) : string :=
  match f with
  | S754_nan => "NaN"
  | S754_infinity s => if s then "-Infinity" else "Infinity"
  | _ => float_repr f
  end.

(** Items are written in the dictionary's own order: the call passes no
    [sort_keys]. *)
Fixpoint json_dumps (v : value) : string :=
  match v with
  | VNone => "null"
  | VBool b => if b then "true" else "false"
  | VInt n => str_of_Z n
  | VFloat f => json_floatstr f
  | VStr s => json_str s
  | VList l => "[" ++ str_join "," (map json_dumps l) ++ "]"
  | VDict d =>
      "{" ++ str_join ","
               (map (fun kv => json_str (fst kv) ++ ":" ++ json_dumps (snd kv)) d)
          ++ "}"
  end.

(** ** Bytes, UTF-8 and Base64 *)

Definition bytes : Type := list Z.

(** [s.encode('utf-8')], for the code points below 256 that [string] holds *)
Fixpoint utf8_encode (s : string) : bytes :=
  match s with
  | EmptyString => []
  | String c r =>
      let n := code c in
      if n <? 128 then n :: utf8_encode r
      else Z.lor 192 (Z.shiftr n 6) :: Z.lor 128 (Z.land n 63) :: utf8_encode r
  end.

Definition b64_char (n : Z) : ascii :=
  if n <? 26 then chr (65 + n)
  else if n <? 52 then chr (71 + n)
  else if n <? 62 then chr (n - 4)
  else if n =? 62 then "+"%char
  else "/"%char.

(** [base64.b64encode(b).decode('utf-8')] *)
Fixpoint b64encode (b : bytes) : string :=
  match b with
  | [] => EmptyString
  | [x] =>
      String (b64_char (Z.shiftr x 2))
        (String (b64_char (Z.shiftl (Z.land x 3) 4)) "==")
  | [x; y] =>
      String (b64_char (Z.shiftr x 2))
        (String (b64_char (Z.lor (Z.shiftl (Z.land x 3) 4) (Z.shiftr y 4)))
           (String (b64_char (Z.shiftl (Z.land y 15) 2)) "="))
  | x :: y :: z :: r =>
      String (b64_char (Z.shiftr x 2))
        (String (b64_char (Z.lor (Z.shiftl (Z.land x 3) 4) (Z.shiftr y 4)))
           (String (b64_char (Z.lor (Z.shiftl (Z.land y 15) 2) (Z.shiftr z 6)))
              (String (b64_char (Z.land z 63)) (b64encode r))))
  end.

(** ** SHA-256 and HMAC (FIPS 180-4, RFC 2104), on 32-bit words held in [Z] *)

Module SHA256.

Definition w32 (x : Z) : Z := x mod 2 ^ 32.

Definition rotr (n x : Z) : Z :=
  Z.lor (Z.shiftr x n) (w32 (Z.shiftl x (32 - n))).

Definition Ch (x y z : Z) : Z :=
  Z.lxor (Z.land x y) (Z.land (Z.lxor x (2 ^ 32 - 1)) z).

Definition Maj (x y z : Z) : Z :=
  Z.lxor (Z.lxor (Z.land x y) (Z.land x z)) (Z.land y z).

Definition Sigma0 (x : Z) : Z := Z.lxor (Z.lxor (rotr 2 x) (rotr 13 x)) (rotr 22 x).
Definition Sigma1 (x : Z) : Z := Z.lxor (Z.lxor (rotr 6 x) (rotr 11 x)) (rotr 25 x).
Definition sigma0 (x : Z) : Z := Z.lxor (Z.lxor (rotr 7 x) (rotr 18 x)) (Z.shiftr x 3).
Definition sigma1 (x : Z) : Z := Z.lxor (Z.lxor (rotr 17 x) (rotr 19 x)) (Z.shiftr x 10).

Definition is_prime (n : Z) : bool :=
  forallb (fun d => negb (n mod Z.of_nat d =? 0)) (seq 2 (Z.to_nat n - 2)).

(** The first sixty-four primes. *)
Definition primes : list Z :=
  firstn 64 (filter is_prime (map Z.of_nat (seq 2 400))).

(** The integer part of the cube root, one bit after the other. *)
Definition cube_root (n : Z) : Z :=
  fold_left
    (fun r b => let r' := r + 2 ^ Z.of_nat b in if r' * r' * r' <=? n then r' else r)
    (rev (seq 0 40)) 0.

(** The round constants: the first thirty-two bits of the fractional parts
    of the cube roots of the first sixty-four primes. *)
Definition K : list Z :=
  Eval vm_compute in map (fun p => w32 (cube_root (p * 2 ^ 96))) primes.

(** The initial hash value: the same bits of the square roots of the first
    eight primes. *)
Definition H0 : list Z :=
  Eval vm_compute in map (fun p => w32 (Z.sqrt (p * 2 ^ 64))) (firstn 8 primes).

(** The message followed by the bit [1], zeros and its length in bits on
    eight bytes, a multiple of 64 bytes in all. *)
Definition be_bytes (k : nat) (n : Z) : bytes :=
  map (fun i => Z.shiftr n (8 * Z.of_nat i) mod 256) (rev (seq 0 k)).

Definition pad (msg : bytes) : bytes :=
  let len := Z.of_nat (List.length msg) in
  (msg ++ 128 :: repeat 0 (Z.to_nat ((55 - len) mod 64)) ++ be_bytes 8 (8 * len))%list.

Fixpoint words (fuel : nat) (b : bytes) : list Z :=
  match fuel, b with
  | S f, b0 :: b1 :: b2 :: b3 :: r =>
      (((b0 * 256 + b1) * 256 + b2) * 256 + b3) :: words f r
  | _, _ => []
  end.

(** Words 16 to 63 of the message schedule; [w] holds the sixteen words
    before the next one, oldest first. *)
Fixpoint schedule (n : nat) (w : list Z) : list Z :=
  match n with
  | O => []
  | S n' =>
      let x := w32 (sigma1 (nth 14 w 0) + nth 9 w 0 + sigma0 (nth 1 w 0) + nth 0 w 0) in
      x :: schedule n' (tl w ++ [x])%list
  end.

Definition round (st : list Z) (kw : Z * Z) : list Z :=
  match st with
  | [a; b; c; d; e; f; g; h] =>
      let t1 := h + Sigma1 e + Ch e f g + fst kw + snd kw in
      let t2 := Sigma0 a + Maj a b c in
      [w32 (t1 + t2); a; b; c; w32 (d + t1); e; f; g]
  | _ => st
  end.

Definition compress (h : list Z) (block : list Z) : list Z :=
  let w := (block ++ schedule 48 block)%list in
  map (fun p => w32 (fst p + snd p)) (combine h (fold_left round (combine K w) h)).

Fixpoint blocks (fuel : nat) (h : list Z) (ws : list Z) : list Z :=
  match fuel, ws with
  | S f, _ :: _ => blocks f (compress h (firstn 16 ws)) (skipn 16 ws)
  | _, _ => h
  end.

(** [hashlib.sha256(msg).digest()] *)
Definition sha256 (msg : bytes) : bytes :=
  let p := pad msg in
  let ws := words (List.length p) p in
  flat_map (be_bytes 4) (blocks (List.length ws) H0 ws).

Definition xor_pad (c : Z) (key : bytes) : bytes :=
  map (Z.lxor c) (key ++ repeat 0 (64 - List.length key))%list.

(** [hmac.new(key, msg, hashlib.sha256).digest()] *)
Definition hmac (key msg : bytes) : bytes :=
  let k := if (64 <? Z.of_nat (List.length key)) then sha256 key else key in
  sha256 (xor_pad 92 k ++ sha256 (xor_pad 54 k ++ msg))%list.

End SHA256.

(** ** [datetime] *)

Notation "x <~ m ;; k" :=
  (match m with Some x => k | None => None end)
  (at level 61, m at next level, right associativity).

Module DT.

(** The fields of a [datetime]; [tzinfo] is the UTC offset of an aware
    value, in microseconds, and [None] on a naive one. *)
Record datetime : Type := mk {
  year : Z; month : Z; day : Z;
  hour : Z; minute : Z; second : Z; microsecond : Z;
  tzinfo : option Z
}.

Definition is_leap (y : Z) : bool :=
  (y mod 4 =? 0) && (negb (y mod 100 =? 0) || (y mod 400 =? 0)).

Definition days_in_month (y m : Z) : Z :=
  if m =? 2 then (if is_leap y then 29 else 28)
  else if (m =? 4) || (m =? 6) || (m =? 9) || (m =? 11) then 30
  else 31.

Definition days_before_year (y : Z) : Z :=
  (y - 1) * 365 + (y - 1) / 4 - (y - 1) / 100 + (y - 1) / 400.

Definition days_before_month (y m : Z) : Z :=
  nth (Z.to_nat m) [0; 0; 31; 59; 90; 120; 151; 181; 212; 243; 273; 304; 334] 0
  + (if (2 <? m) && is_leap y then 1 else 0).

(** The proleptic Gregorian ordinal: day 1 is 0001-01-01. *)
Definition ymd2ord (y m d : Z) : Z :=
  days_before_year y + days_before_month y m + d.

Definition fields_ok (t : datetime) : bool :=
  (1 <=? year t) && (year t <=? 9999)
  && (1 <=? month t) && (month t <=? 12)
  && (1 <=? day t) && (day t <=? days_in_month (year t) (month t))
  && (0 <=? hour t) && (hour t <? 24)
  && (0 <=? minute t) && (minute t <? 60)
  && (0 <=? second t) && (second t <? 60)
  && (0 <=? microsecond t) && (microsecond t <? 1000000).

Definition day_us : Z := 86400000000.

(** The wall-clock reading in microseconds since 0001-01-01T00:00:00. *)
Definition wall_us (t : datetime) : Z :=
  (((ymd2ord (year t) (month t) (day t) - 1) * 24 + hour t) * 60 + minute t) * 60000000
  + second t * 1000000 + microsecond t.

(** The UTC offset suffix of [isoformat]: [+HH:MM], with seconds and
    microseconds only when they are not zero. *)
Definition iso_offset (off : Z) (rest : string) : string :=
  let a := Z.abs off in
  let ss := a mod 60000000 in
  String (if off <? 0 then "-" else "+")
    (zfill 2 (a / 3600000000)
       (String ":"
          (zfill 2 (a / 60000000 mod 60)
             (if ss =? 0 then rest
              else String ":"
                     (zfill 2 (ss / 1000000)
                        (if ss mod 1000000 =? 0 then rest
                         else String "." (zfill 6 (ss mod 1000000) rest))))))).

(** [HH:MM:SS], then [.ffffff] when the microseconds are not zero, then
    [rest]. *)
Definition iso_time (h mi s us : Z) (rest : string) : string :=
  zfill 2 h
    (String ":" (zfill 2 mi
       (String ":" (zfill 2 s
          (if us =? 0 then rest else String "." (zfill 6 us rest)))))).

(** [t.isoformat()] followed by [rest]: [YYYY-MM-DD], [T], the time, then
    the offset of an aware value. *)
Definition isoformat_then (t : datetime) (rest : string) : string :=
  zfill 4 (year t)
    (String "-" (zfill 2 (month t)
       (String "-" (zfill 2 (day t)
          (String "T"
             (iso_time (hour t) (minute t) (second t) (microsecond t)
                match tzinfo t with
                | Some off => iso_offset off rest
                | None => rest
                end)))))).

Definition isoformat (t : datetime) : string := isoformat_then t EmptyString.

Definition expect (c : ascii) (s : string) : option string :=
  match s with
  | String c' r => if Ascii.eqb c c' then Some r else None
  | EmptyString => None
  end.

(** [HH[:MM[:SS[.fff[fff]]]]], the whole string *)
Definition parse_hh_mm_ss_ff (s : string) : option (Z * Z * Z * Z) :=
  p1 <~ parse_digits 2 0 s ;;
  let '(hh, r1) := p1 in
  match r1 with
  | EmptyString => Some (hh, 0, 0, 0)
  | _ =>
      r1' <~ expect ":" r1 ;;
      p2 <~ parse_digits 2 0 r1' ;;
      let '(mm, r2) := p2 in
      match r2 with
      | EmptyString => Some (hh, mm, 0, 0)
      | _ =>
          r2' <~ expect ":" r2 ;;
          p3 <~ parse_digits 2 0 r2' ;;
          let '(ss, r3) := p3 in
          match r3 with
          | EmptyString => Some (hh, mm, ss, 0)
          | _ =>
              r3' <~ expect "." r3 ;;
              match String.length r3' with
              | 3%nat =>
                  p4 <~ parse_digits 3 0 r3' ;; Some (hh, mm, ss, fst p4 * 1000)
              | 6%nat =>
                  p4 <~ parse_digits 6 0 r3' ;; Some (hh, mm, ss, fst p4)
              | _ => None
              end
          end
      end
  end.

(** The time of day, and what follows the first sign if there is one. *)
Fixpoint split_tz (s : string) : string * option (bool * string) :=
  match s with
  | EmptyString => (EmptyString, None)
  | String c r =>
      if Ascii.eqb c "+" then (EmptyString, Some (false, r))
      else if Ascii.eqb c "-" then (EmptyString, Some (true, r))
      else let '(t, z) := split_tz r in (String c t, z)
  end.

(** The offset [HH:MM[:SS[.ffffff]]] after the sign, in microseconds. *)
Definition parse_tz (neg : bool) (s : string) : option Z :=
  let n := String.length s in
  if Nat.eqb n 5 || Nat.eqb n 8 || Nat.eqb n 15 then
    p <~ parse_hh_mm_ss_ff s ;;
    let '(hh, mm, ss, us) := p in
    let off := ((hh * 60 + mm) * 60 + ss) * 1000000 + us in
    if off <? day_us then Some (cond_Zopp neg off) else None
  else None.

Definition parse_time (s : string) : option (Z * Z * Z * Z * option Z) :=
  let '(t, z) := split_tz s in
  p <~ parse_hh_mm_ss_ff t ;;
  match z with
  | None => Some (p, None)
  | Some (neg, tzs) => off <~ parse_tz neg tzs ;; Some (p, Some off)
  end.

Definition parse_iso (s : string) : option datetime :=
  p1 <~ parse_digits 4 0 s ;;
  r1 <~ expect "-" (snd p1) ;;
  p2 <~ parse_digits 2 0 r1 ;;
  r2 <~ expect "-" (snd p2) ;;
  p3 <~ parse_digits 2 0 r2 ;;
  p4 <~ match snd p3 with
        | EmptyString => Some (0, 0, 0, 0, None)
        | String _ tstr => parse_time tstr
        end ;;
  let '(hh, mm, ss, us, tz) := p4 in
  let t := mk (fst p1) (fst p2) (fst p3) hh mm ss us tz in
  if fields_ok t then Some t else None.

(** [datetime.fromisoformat(s)], on the grammar
    [YYYY-MM-DD[*HH[:MM[:SS[.fff[fff]]]][+HH:MM[:SS[.ffffff]]]]] that
    [isoformat] writes; anything else is a [ValueError]. *)
Definition fromisoformat (s : string) : result datetime :=
  match parse_iso s with
  | Some t => Ok t
  | None => Raise ValueError
  end.

(** [(datetime.now(t.tzinfo) - t)], in microseconds.  [now_utc] is the
    instant of the call read on the UTC wall clock and [local_off] the
    offset of the local zone, which [now(None)] reads. *)
Definition age_us (now_utc local_off : Z) (t : datetime) : Z :=
  now_utc + match tzinfo t with Some off => off | None => local_off end - wall_us t.

End DT.

(** ** Operators on dynamically typed operands *)

(** [k in v] for a string [k] *)
Definition py_contains (k : string) (v : value) : result bool :=
  match v with
  | VDict d => Ok (dict_mem k d)
  | VList l => Ok (existsb (py_eq (VStr k)) l)
  | VStr s => Ok (str_contains k s)
  | _ => Raise TypeError
  end.

(** [v[k]] for a string [k]: only a dictionary is indexed by a string. *)
Definition py_index (k : string) (v : value) : result value :=
  match v with
  | VDict d => dict_index k d
  | _ => Raise TypeError
  end.

(** The elements a [for] loop over [v] visits. *)
Definition py_iter (v : value) : result (list value) :=
  match v with
  | VList l => Ok l
  | VDict d => Ok (map VStr (dict_keys d))
  | VStr s => Ok (map (fun c => VStr (String c EmptyString)) (list_ascii_of_string s))
  | _ => Raise TypeError
  end.

(** [d.get(k, default)] *)
Definition dict_get_default (k : string) (default : value) (d : dict) : value :=
  match dict_get k d with Some v => v | None => default end.

Fixpoint map_result {A B : Type} (f : A -> result B) (l : list A) : result (list B) :=
  match l with
  | [] => Ok []
  | x :: r => y <- f x ;; ys <- map_result f r ;; Ok (y :: ys)
  end.

(** ** WebhookPayloadBuilder *)

Record builder : Type := {
  secret_key : string;
  system_name : string;
  version : string
}.

(** What one call of [create_payload] reads from the clock and from the
    random source, in the order it reads them. *)
Record entropy : Type := {
  utcnow : DT.datetime;      (* datetime.utcnow() *)
  uuid_hex : string;         (* uuid.uuid4().hex *)
  time_ms : Z;               (* int(time.time() * 1000) *)
  uuid_str : string          (* str(uuid.uuid4()) *)
}.

Definition essential_fields : list string :=
  ["incident_id"; "frame_id"; "confidence"; "session_id"].

Definition excluded_fields : list string :=
  ["debug_info"; "raw_frame_data"; "processing_metadata"].

(** The literal [0.7] *)
Definition confidence_threshold : spec_float := float_ratio 7 10.

(** The [bbox] entry of a compressed object, when the object has a bounding
    box that is a dictionary or a list. *)
Definition compress_bbox (obj compressed_obj : dict) : result dict :=
  if dict_mem "bounding_box" obj then
    bbox <- dict_index "bounding_box" obj ;;
    match bbox with
    | VDict b =>
        x <- py_int (dict_get_default "x" (VInt 0) b) ;;
        y <- py_int (dict_get_default "y" (VInt 0) b) ;;
        w <- py_int (dict_get_default "width" (VInt 0) b) ;;
        h <- py_int (dict_get_default "height" (VInt 0) b) ;;
        Ok (dict_set "bbox" (VList [VInt x; VInt y; VInt w; VInt h]) compressed_obj)
    | VList l =>
        ints <- map_result py_int l ;;
        Ok (dict_set "bbox" (VList (map VInt ints)) compressed_obj)
    | _ => Ok compressed_obj
    end
  else Ok compressed_obj.

(** The body of the loop of [_compress_detection_details] on one element:
    the object to append, or [None] when the element is skipped. *)
Definition compress_object (obj : value) : result (option value) :=
  match obj with
  | VDict o =>
      keep <- py_ge_float (dict_get_default "confidence" (VInt 0) o) confidence_threshold ;;
      if keep then
        ty <- dict_index "type" o ;;
        c <- dict_index "confidence" o ;;
        conf <- py_round2 c ;;
        compressed_obj <- compress_bbox o [("type", ty); ("conf", conf)] ;;
        Ok (Some (VDict compressed_obj))
      else Ok None
  | _ => Raise AttributeError
  end.

(** The loop itself; [acc] is [compressed["objects"]] so far. *)
Fixpoint compress_objects (objs : list value) (acc : list value) : result (list value) :=
  match objs with
  | [] => Ok acc
  | obj :: r =>
      o <- compress_object obj ;;
      compress_objects r (match o with Some c => acc ++ [c] | None => acc end)%list
  end.

Definition _compress_detection_details (details : value) : result value :=
  has <- py_contains "objects" details ;;
  if has then
    objs <- py_index "objects" details ;;
    items <- py_iter objs ;;
    out <- compress_objects items [] ;;
    Ok (VDict [("objects", VList out)])
  else Ok (VDict []).

Definition _optimize_data_for_profile (data : value) (profile : string) : result value :=
  if String.eqb profile "minimal" then
    match data with
    | VDict d => Ok (VDict (filter (fun kv => str_mem (fst kv) essential_fields) d))
    | _ => Raise AttributeError
    end
  else if String.eqb profile "standard" then
    match data with
    | VDict d =>
        let optimized := filter (fun kv => negb (str_mem (fst kv) excluded_fields)) d in
        if dict_mem "detection_details" optimized then
          details <- dict_index "detection_details" optimized ;;
          c <- _compress_detection_details details ;;
          Ok (VDict (dict_set "detection_details" c optimized))
        else Ok (VDict optimized)
    | _ => Raise AttributeError
    end
  else Ok data.

Definition _generate_request_id (e : entropy) : string :=
  "req_" ++ str_of_Z (time_ms e) ++ "_" ++ str_take 8 (uuid_str e).

(** The signature of the bytes [json.dumps] writes, under [key]. *)
Definition sign_bytes (key : string) (payload : dict) : string :=
  "sha256=" ++ b64encode (SHA256.hmac (utf8_encode key) (utf8_encode (json_dumps (VDict payload)))).

(** [WebhookPayloadBuilder._generate_signature] *)
Definition _generate_signature (self : builder) (payload : dict) : string :=
  let payload_copy := dict_pop "signature" payload in
  sign_bytes (secret_key self) payload_copy.

Definition base_payload (self : builder) (e : entropy) (event_type : string)
    (data : value) (priority : string) : dict :=
  [ ("event", VStr event_type);
    ("timestamp", VStr (DT.isoformat (utcnow e) ++ "Z"));
    ("source", VDict [ ("system", VStr (system_name self));
                       ("version", VStr (version self));
                       ("instance_id",
                        VStr (system_name self ++ "-" ++ str_take 8 (uuid_hex e))) ]);
    ("data", data);
    ("meta", VDict [ ("request_id", VStr (_generate_request_id e));
                     ("priority", VStr priority);
                     ("schema_version", VStr "1.0.0") ]) ].

Definition create_payload (self : builder) (e : entropy) (event_type : string)
    (data : value) (profile priority : string) : result value :=
  d <- _optimize_data_for_profile data profile ;;
  let p := base_payload self e event_type d priority in
  Ok (VDict (dict_set "signature" (VStr (_generate_signature self p)) p)).

(** ** WebhookValidator *)

(** The replay set [processed_requests]; membership is by [==]. *)
Definition request_set : Type := list value.

Definition set_mem (v : value) (s : request_set) : bool := existsb (py_eq v) s.

Definition set_add (v : value) (s : request_set) : request_set :=
  if set_mem v s then s else v :: s.

Record validator : Type := {
  v_secret_key : string;
  processed_requests : request_set
}.

(** [WebhookValidator(secret_key)] *)
Definition new_validator (key : string) : validator :=
  {| v_secret_key := key; processed_requests := [] |}.

Record verdict : Type := {
  valid : bool;
  errors : list string
}.

(** The clock of one call of [validate_payload]: the instant in
    microseconds on the UTC wall clock, and the offset of the local zone. *)
Record clock : Type := {
  now_utc : Z;
  local_offset : Z
}.

Definition required_fields : list string :=
  ["event"; "timestamp"; "source"; "data"; "meta"].

Definition max_age_us : Z := 300 * 1000000.

(** The loop over [required_fields], appending to [errs]. *)
Fixpoint check_required (fields : list string) (payload : value) (errs : list string)
    : result (list string) :=
  match fields with
  | [] => Ok errs
  | field :: r =>
      has <- py_contains field payload ;;
      check_required r payload
        (if has then errs
         else (errs ++ [("Missing required field: " ++ field)%string])%list)
  end.

(** The timestamp block.  [total_seconds() > 300] is decided on the exact
    microseconds: the quotient by [10**6] is rounded to a float
    monotonically and 300 is a float. *)
Definition check_timestamp (now : clock) (payload : value) (errs : list string)
    : result (list string) :=
  has <- py_contains "timestamp" payload ;;
  if has then
    ts <- py_index "timestamp" payload ;;
    match ts with
    | VStr s =>
        match DT.fromisoformat (str_replace "Z" "+00:00" s) with
        | Ok timestamp =>
            if max_age_us <? DT.age_us (now_utc now) (local_offset now) timestamp
            then Ok (errs ++ ["Timestamp too old"])%list
            else Ok errs
        | Raise ValueError => Ok (errs ++ ["Invalid timestamp format"])%list
        | Raise e => Raise e
        end
    | _ => Raise AttributeError
    end
  else Ok errs.

(** [payload.get("meta", {}).get("request_id")] *)
Definition get_request_id (payload : value) : result value :=
  match payload with
  | VDict p =>
      match dict_get_default "meta" (VDict []) p with
      | VDict m => Ok (dict_get_default "request_id" VNone m)
      | _ => Raise AttributeError
      end
  | _ => Raise AttributeError
  end.

(** The replay block: the errors and the replay set after it. *)
Definition check_replay (payload : value) (seen : request_set) (errs : list string)
    : result (list string) * request_set :=
  match get_request_id payload with
  | Raise e => (Raise e, seen)
  | Ok request_id =>
      if truthy request_id then
        if hashable request_id then
          if set_mem request_id seen
          then (Ok (errs ++ ["Duplicate request ID (replay attack)"])%list, seen)
          else (Ok errs, set_add request_id seen)
        else (Raise TypeError, seen)
      else (Ok errs, seen)
  end.

(** [WebhookValidator._generate_signature] *)
Definition v_generate_signature (key : string) (payload : dict) : string :=
  sign_bytes key payload.

(** [hmac.compare_digest] on two strings, which must be ASCII. *)
Definition compare_digest (a b : string) : result bool :=
  if str_forall is_ascii_char a && str_forall is_ascii_char b
  then Ok (String.eqb a b)
  else Raise TypeError.

Definition _verify_signature (key : string) (payload : value) (received_signature : string)
    : result bool :=
  match payload with
  | VDict p =>
      let payload_copy := dict_pop "signature" p in
      let expected_signature := v_generate_signature key payload_copy in
      let received_sig := str_replace "sha256=" EmptyString received_signature in
      let expected_sig := str_replace "sha256=" EmptyString expected_signature in
      compare_digest expected_sig received_sig
  | _ => Raise AttributeError
  end.

(** [validate_payload]: the verdict, or the exception that ends the call,
    and the validator after the call. *)
Definition validate_payload (self : validator) (now : clock) (payload : value)
    (received_signature : string) : result verdict * validator :=
  let seen := processed_requests self in
  match check_required required_fields payload [] with
  | Raise e => (Raise e, self)
  | Ok errs1 =>
      match check_timestamp now payload errs1 with
      | Raise e => (Raise e, self)
      | Ok errs2 =>
          let '(r, seen') := check_replay payload seen errs2 in
          let self' := {| v_secret_key := v_secret_key self;
                          processed_requests := seen' |} in
          match r with
          | Raise e => (Raise e, self')
          | Ok errs3 =>
              match _verify_signature (v_secret_key self) payload received_signature with
              | Raise e => (Raise e, self')
              | Ok ok =>
                  let errs4 := if ok then errs3 else (errs3 ++ ["Invalid signature"])%list in
                  (Ok {| valid := Nat.eqb (List.length errs4) 0; errors := errs4 |}, self')
              end
          end
      end
  end.

(** ** Sequences of calls *)

(** One call of [validate_payload] as a validator receives it. *)
Record call : Type := {
  call_clock : clock;
  call_payload : value;
  call_signature : string
}.

(** The validator after a sequence of calls, whatever they returned. *)
Definition run_calls (self : validator) (calls : list call) : validator :=
  fold_left
    (fun v c => snd (validate_payload v (call_clock c) (call_payload c) (call_signature c)))
    calls self.

(** ** The envelope as the specification types it *)

(** A mapping whose [timestamp], when present, is a string, whose [meta],
    when present, is a mapping, and whose [request_id], when it counts as
    present, can be a member of a set. *)
Definition well_typed (payload : value) : bool :=
  match payload with
  | VDict p =>
      match dict_get "timestamp" p with
      | Some (VStr _) | None => true
      | _ => false
      end
      && match dict_get_default "meta" (VDict []) p with
         | VDict m =>
             let r := dict_get_default "request_id" VNone m in
             negb (truthy r) || hashable r
         | _ => false
         end
  | _ => false
  end.

Definition is_ascii (s : string) : bool := str_forall is_ascii_char s.

(** The envelope's [meta] carries the request identifier [rid]. *)
Definition carries_request_id (payload : value) (rid : value) : Prop :=
  exists p m,
    payload = VDict p
    /\ dict_get "meta" p = Some (VDict m)
    /\ dict_get "request_id" m = Some rid.

(** No [meta], or a [meta] without [request_id], or a falsy [request_id]. *)
Definition no_request_id (payload : value) : Prop :=
  exists p,
    payload = VDict p
    /\ (dict_get "meta" p = None
        \/ exists m,
             dict_get "meta" p = Some (VDict m)
             /\ (dict_get "request_id" m = None
                 \/ exists r, dict_get "request_id" m = Some r /\ truthy r = false)).

Definition duplicate_error : string := "Duplicate request ID (replay attack)".

(** ** The four checks as the specification words them *)

(** Structural: one reason per required field that is missing. *)
Definition structural_errors (p : dict) : list string :=
  map (fun f => ("Missing required field: " ++ f)%string)
      (filter (fun f => negb (dict_mem f p)) required_fields).

(** Freshness: only when a timestamp is present. *)
Definition freshness_errors (now : clock) (p : dict) : list string :=
  match dict_get "timestamp" p with
  | Some (VStr s) =>
      match DT.parse_iso (str_replace "Z" "+00:00" s) with
      | Some t =>
          if max_age_us <? DT.age_us (now_utc now) (local_offset now) t
          then ["Timestamp too old"] else []
      | None => ["Invalid timestamp format"]
      end
  | _ => []
  end.

Definition request_id_of (p : dict) : value :=
  match dict_get_default "meta" (VDict []) p with
  | VDict m => dict_get_default "request_id" VNone m
  | _ => VNone
  end.

(** Replay: only when a request identifier is present. *)
Definition replay_errors (seen : request_set) (p : dict) : list string :=
  let r := request_id_of p in
  if truthy r && set_mem r seen then [duplicate_error] else [].

(** The replay set after the call. *)
Definition replay_set_after (seen : request_set) (p : dict) : request_set :=
  let r := request_id_of p in
  if truthy r && negb (set_mem r seen) then r :: seen else seen.

Definition strip_prefix_tag (s : string) : string :=
  str_replace "sha256=" EmptyString s.

(** Signature: the recomputed and the received values differ. *)
Definition signature_errors (key : string) (p : dict) (received : string) : list string :=
  if String.eqb (strip_prefix_tag (sign_bytes key (dict_pop "signature" p)))
                (strip_prefix_tag received)
  then [] else ["Invalid signature"].

(** ** The standard profile as the specification words it *)

(** The entry's confidence is at least the literal [0.7]. *)
Definition confident (obj : value) : bool :=
  match obj with
  | VDict o =>
      match py_ge_float (dict_get_default "confidence" (VInt 0) o) confidence_threshold with
      | Ok b => b
      | Raise _ => false
      end
  | _ => false
  end.

(** What the compressed entry [c] holds for the entry [obj]. *)
Definition compressed_form (obj c : value) : Prop :=
  exists o co ty cf conf,
    obj = VDict o /\ c = VDict co
    /\ dict_get "type" o = Some ty /\ dict_get "type" co = Some ty
    /\ dict_get "confidence" o = Some cf /\ py_round2 cf = Ok conf
    /\ dict_get "conf" co = Some conf
    /\ (forall k, dict_mem k co = true -> k = "type" \/ k = "conf" \/ k = "bbox")
    /\ match dict_get "bounding_box" o with
       | Some (VDict b) =>
           exists x y w h,
             py_int (dict_get_default "x" (VInt 0) b) = Ok x
             /\ py_int (dict_get_default "y" (VInt 0) b) = Ok y
             /\ py_int (dict_get_default "width" (VInt 0) b) = Ok w
             /\ py_int (dict_get_default "height" (VInt 0) b) = Ok h
             /\ dict_get "bbox" co = Some (VList [VInt x; VInt y; VInt w; VInt h])
       | Some (VList l) =>
           exists ints,
             map_result py_int l = Ok ints
             /\ dict_get "bbox" co = Some (VList (map VInt ints))
       | _ => dict_get "bbox" co = None
       end.


(** ** Sample data *)

Definition flt (n d : Z) : value := VFloat (float_ratio n d).

(** The detection object of the example in the source, the one the
    specification quotes. *)
Definition sample_object : value :=
  VDict [ ("type", VStr "person");
          ("confidence", flt 94 100);
          ("bounding_box",
           VDict [ ("x", flt 1205 10); ("y", flt 452 10);
                   ("width", flt 1807 10); ("height", flt 1559 10) ]);
          ("attributes",
           VDict [ ("age_estimate", VStr "adult"); ("clothing_color", VStr "blue") ]) ].

Definition low_confidence_object : value :=
  VDict [ ("type", VStr "shadow"); ("confidence", flt 5 10) ].

Definition untyped_object : value :=
  VDict [ ("confidence", flt 9 10) ].

Definition sample_data (objs : list value) : value :=
  VDict [ ("incident_id", VStr "inc_123");
          ("frame_id", VStr "frame_456");
          ("confidence", flt 94 100);
          ("detection_details", VDict [ ("objects", VList objs) ]);
          ("debug_info",
           VDict [ ("processing_time", VInt 156); ("model_version", VStr "v2.1") ]) ].

Definition sample_builder : builder :=
  {| secret_key := "your-webhook-secret-key-here";
     system_name := "frame-analyzer";
     version := "1.0.0" |}.

Definition sample_entropy : entropy :=
  {| utcnow := DT.mk 2024 2 29 13 5 9 123456 None;
     uuid_hex := "0123456789abcdef0123456789abcdef";
     time_ms := 1709211909123;
     uuid_str := "89abcdef-0123-4567-89ab-cdef01234567" |}.

(** A clock [s] seconds after the sample envelope was created. *)
Definition sample_clock (s : Z) : clock :=
  {| now_utc := DT.wall_us (utcnow sample_entropy) + s * 1000000; local_offset := 0 |}.

Definition sample_validator : validator := new_validator "your-webhook-secret-key-here".

(** The same envelope content with its keys inserted in two orders. *)
Definition content_event_first : dict :=
  [ ("event", VStr "incident_detected"); ("data", VDict [("frame_id", VStr "frame_456")]) ].

Definition content_data_first : dict :=
  [ ("data", VDict [("frame_id", VStr "frame_456")]); ("event", VStr "incident_detected") ].

(** An envelope with every required field and the given request
    identifier. *)
Definition envelope_with_id (rid : value) : value :=
  VDict [ ("event", VStr "incident_detected");
          ("timestamp", VStr "2024-02-29T13:05:09.123456Z");
          ("source", VDict [("system", VStr "frame-analyzer")]);
          ("data", VDict []);
          ("meta", VDict [("request_id", rid); ("priority", VStr "medium")]) ].

(** The same envelope without its [data] field. *)
Definition envelope_without_data : value :=
  VDict [ ("event", VStr "incident_detected");
          ("timestamp", VStr "2024-02-29T13:05:09.123456Z");
          ("source", VDict [("system", VStr "frame-analyzer")]);
          ("meta", VDict [("request_id", VStr "req_1"); ("priority", VStr "medium")]) ].

(** The items of a mapping. *)
Definition dict_of (v : value) : dict :=
  match v with
  | VDict d => d
  | _ => []
  end.

(** A signature that no key produces: it is not 44 characters long. *)
Definition bogus_signature : string := "sha256=AAAA".

(** Two calls in a row with an envelope whose request identifier is the
    empty string. *)
Definition empty_id_first_call : result verdict * validator :=
  validate_payload sample_validator (sample_clock 10)
    (envelope_with_id (VStr EmptyString)) bogus_signature.

Definition empty_id_second_call : result verdict * validator :=
  validate_payload (snd empty_id_first_call) (sample_clock 20)
    (envelope_with_id (VStr EmptyString)) bogus_signature.

(** A call whose payload is a list, not a mapping. *)
Definition list_payload_call : result verdict * validator :=
  validate_payload sample_validator (sample_clock 10)
    (VList [VStr "event"; VStr "data"]) bogus_signature.

(** The call that presents the envelope with the empty identifier. *)
Definition empty_id_call : call :=
  {| call_clock := sample_clock 10;
     call_payload := envelope_with_id (VStr EmptyString);
     call_signature := bogus_signature |}.

(** The top-level fields the standard profile keeps. *)
Definition standard_kept (d : dict) : dict :=
  filter (fun kv => negb (str_mem (fst kv) excluded_fields)) d.

(** The envelope [create_payload] returns for the reduced data [d]: the
    five fields, then the signature. *)
Definition signed_envelope (self : builder) (e : entropy) (event_type : string)
    (d : value) (priority : string) : dict :=
  let p := base_payload self e event_type d priority in
  (p ++ [("signature", VStr (_generate_signature self p))])%list.

(** Bytes in lower-case hexadecimal, as [hexdigest] prints them. *)
Definition hex_of_bytes (b : bytes) : string :=
  fold_right
    (fun x acc => String (hex_char (x / 16)) (String (hex_char (x mod 16)) acc))
    EmptyString b.

(** A string written with apostrophes where it has double quotes. *)
Definition with_quotes (s : string) : string :=
  str_replace "'" (String "034" EmptyString) s.

(** The errors of one call, check after check. *)
Definition all_errors (self : validator) (now : clock) (p : dict) (received : string)
    : list string :=
  (structural_errors p ++ freshness_errors now p
   ++ replay_errors (processed_requests self) p
   ++ signature_errors (v_secret_key self) p received)%list.

(** * Properties *)

(** ** The library models on known values

    The values on the right are those CPython 3.11 prints for the same
    calls. *)

Example sha256_abc :
  hex_of_bytes (SHA256.sha256 (utf8_encode "abc"))
  = "ba7816bf8f01cfea414140de5dae2223b00361a396177a9cb410ff61f20015ad".
Proof. vm_compute. reflexivity. Qed.

Example sha256_two_blocks :
  hex_of_bytes
    (SHA256.sha256
       (utf8_encode "abcdbcdecdefdefgefghfghighijhijkijkljklmklmnlmnomnopnopq"))
  = "248d6a61d20638b8e5c026930c3e6039a33ce45964ff2167f6ecedd419db06c1".
Proof. vm_compute. reflexivity. Qed.

(** RFC 4231, test case 2 *)
Example hmac_sha256_jefe :
  hex_of_bytes (SHA256.hmac (utf8_encode "Jefe") (utf8_encode "what do ya want for nothing?"))
  = "5bdcc146bf60754e6a042426089575c75a003f089d2739839dec58b964ec3843".
Proof. vm_compute. reflexivity. Qed.

Example b64encode_samples :
  map (fun x => b64encode (utf8_encode x)) ["f"; "fo"; "foo"; "foobar"]
  = ["Zg=="; "Zm8="; "Zm9v"; "Zm9vYmFy"].
Proof. vm_compute. reflexivity. Qed.

Example float_repr_samples :
  map (fun q => float_repr (float_ratio (fst q) (snd q)))
      [(7, 10); (94, 100); (1205, 10); (1, 3); (10 ^ 16, 1); (1, 10 ^ 5);
       (1, 2 ^ 44); (5, 10 ^ 324); (2 ^ 53, 1); (-3, 2)]
  = ["0.7"; "0.94"; "120.5"; "0.3333333333333333"; "1e+16"; "1e-05";
     "5.684341886080802e-14"; "5e-324"; "9007199254740992.0"; "-1.5"].
Proof. vm_compute. reflexivity. Qed.

(** [round(2.675, 2)] is [2.67]: the double below 2.675 is rounded, not the
    decimal. *)
Example float_round2_samples :
  map (fun q => float_repr (float_round2 (float_ratio (fst q) (snd q))))
      [(94, 100); (2675, 1000); (5, 1000); (123456, 1000); (-1, 1000)]
  = ["0.94"; "2.67"; "0.01"; "123.46"; "-0.0"].
Proof. vm_compute. reflexivity. Qed.

Example py_int_samples :
  map py_int [flt 1205 10; flt (-1205) 10; flt 1559 10; VStr " 12 "; VBool true;
              VStr "1.5"; VNone; VFloat S754_nan]
  = [Ok 120; Ok (-120); Ok 155; Ok 12; Ok 1;
     Raise ValueError; Raise TypeError; Raise ValueError].
Proof. vm_compute. reflexivity. Qed.

Example json_dumps_sample :
  json_dumps
    (VDict [ ("a", VInt 1);
             ("b", VList [VBool true; VNone; flt 94 100; VStr "x/y"]);
             ("c", VDict []); ("d", VInt (-12)) ])
  = with_quotes "{'a':1,'b':[true,null,0.94,'x/y'],'c':{},'d':-12}".
Proof. vm_compute. reflexivity. Qed.

Example fromisoformat_samples :
  map DT.fromisoformat
      ["2024-02-29T13:05:09.123456+00:00"; "2024-02-29 13:05"; "2023-02-29"; "yesterday"]
  = [Ok (DT.mk 2024 2 29 13 5 9 123456 (Some 0)); Ok (DT.mk 2024 2 29 13 5 0 0 None);
     Raise ValueError; Raise ValueError].
Proof. vm_compute. reflexivity. Qed.

(** The envelope of the example in the source, at a fixed instant and with
    fixed identifiers. *)
Example sample_envelope :
  option_map json_dumps
    (match create_payload sample_builder sample_entropy "incident_detected"
             (sample_data [sample_object; low_confidence_object]) "minimal" "medium"
     with Ok v => Some v | Raise _ => None end)
  = Some (with_quotes
      ("{'event':'incident_detected','timestamp':'2024-02-29T13:05:09.123456Z',"
       ++ "'source':{'system':'frame-analyzer','version':'1.0.0',"
       ++ "'instance_id':'frame-analyzer-01234567'},"
       ++ "'data':{'incident_id':'inc_123','frame_id':'frame_456','confidence':0.94},"
       ++ "'meta':{'request_id':'req_1709211909123_89abcdef','priority':'medium',"
       ++ "'schema_version':'1.0.0'},"
       ++ "'signature':'sha256=NTE9LOVhR0SKBp9zB344HzHw+Yaregyh6jtZdVeaH+g='}")).
Proof. vm_compute. reflexivity. Qed.

(** ** Characters and ASCII strings *)

Lemma code_chr (n : Z) : 0 <= n < 256 -> code (chr n) = n.
Proof.
  intros H. unfold code, chr.
  rewrite N_ascii_embedding by lia. lia.
Qed.

Lemma code_range (c : ascii) : 0 <= code c < 256.
Proof.
  unfold code. pose proof (N_ascii_bounded c). lia.
Qed.

Lemma str_forall_app (p : ascii -> bool) (s t : string) :
  str_forall p (s ++ t) = str_forall p s && str_forall p t.
Proof.
  induction s as [|c s IH]; simpl; [reflexivity|].
  rewrite IH. apply andb_assoc.
Qed.

Lemma replace_from_forall (p : ascii -> bool) (old new : string) :
  str_forall p new = true ->
  forall s skip, str_forall p s = true -> str_forall p (replace_from old new skip s) = true.
Proof.
  intros Hnew. induction s as [|c s IH]; intros skip Hs; [reflexivity|].
  simpl in Hs. apply andb_prop in Hs. destruct Hs as [Hc Hs].
  destruct skip as [|n]; cbn [replace_from].
  - destruct (String.prefix old (String c s)).
    + rewrite str_forall_app, Hnew. simpl. apply IH. exact Hs.
    + simpl. rewrite Hc. simpl. apply IH. exact Hs.
  - apply IH. exact Hs.
Qed.

Lemma str_replace_forall (p : ascii -> bool) (old new s : string) :
  str_forall p new = true -> str_forall p s = true ->
  str_forall p (str_replace old new s) = true.
Proof.
  intros Hn Hs. unfold str_replace. destruct old; [exact Hs|].
  apply replace_from_forall; assumption.
Qed.

Lemma b64_char_ascii (n : Z) : is_ascii_char (b64_char n) = true.
Proof.
  unfold is_ascii_char, b64_char.
  destruct (n <? 26) eqn:E1; [|destruct (n <? 52) eqn:E2; [|destruct (n <? 62) eqn:E3]].
  - apply Z.ltb_lt in E1. apply Z.ltb_lt.
    destruct (Z_lt_dec (65 + n) 0) as [Hn|Hn].
    + unfold code, chr. destruct (65 + n); try lia; reflexivity.
    + rewrite code_chr; lia.
  - apply Z.ltb_lt in E2. apply Z.ltb_ge in E1. apply Z.ltb_lt. rewrite code_chr; lia.
  - apply Z.ltb_lt in E3. apply Z.ltb_ge in E2. apply Z.ltb_lt. rewrite code_chr; lia.
  - destruct (n =? 62); reflexivity.
Qed.

Lemma b64encode_ascii_aux (k : nat) :
  forall b, (List.length b <= k)%nat -> str_forall is_ascii_char (b64encode b) = true.
Proof.
  induction k as [|k IH]; intros b Hb.
  - destruct b; [reflexivity | simpl in Hb; lia].
  - destruct b as [|x [|y [|z r]]]; simpl; rewrite ?b64_char_ascii; simpl; try reflexivity.
    apply IH. simpl in Hb. lia.
Qed.

Lemma b64encode_ascii (b : bytes) : str_forall is_ascii_char (b64encode b) = true.
Proof. apply (b64encode_ascii_aux (List.length b)). lia. Qed.

Lemma sign_bytes_ascii (key : string) (p : dict) : is_ascii (sign_bytes key p) = true.
Proof.
  unfold is_ascii, sign_bytes. rewrite str_forall_app, b64encode_ascii. reflexivity.
Qed.

Lemma strip_prefix_tag_ascii (s : string) :
  is_ascii s = true -> is_ascii (strip_prefix_tag s) = true.
Proof.
  intros H. unfold is_ascii, strip_prefix_tag. apply str_replace_forall; [reflexivity | exact H].
Qed.

(** ** Dictionaries *)

Lemma dict_get_filter_keys (f : string -> bool) (k : string) (d : dict) :
  dict_get k (filter (fun kv => f (fst kv)) d) = if f k then dict_get k d else None.
Proof.
  induction d as [|[k' v] d IH]; simpl.
  - destruct (f k); reflexivity.
  - destruct (f k') eqn:Ef; simpl.
    + destruct (String.eqb k k') eqn:E.
      * apply String.eqb_eq in E. subst. rewrite Ef. reflexivity.
      * exact IH.
    + destruct (String.eqb k k') eqn:E.
      * apply String.eqb_eq in E. subst. rewrite Ef in *. exact IH.
      * exact IH.
Qed.

Lemma dict_pop_set (k : string) (v : value) (d : dict) :
  dict_pop k (dict_set k v d) = dict_pop k d.
Proof.
  unfold dict_pop. induction d as [|[k' v'] d IH]; simpl.
  - rewrite String.eqb_refl. reflexivity.
  - destruct (String.eqb k k') eqn:E; simpl; rewrite E; simpl.
    + reflexivity.
    + rewrite IH. reflexivity.
Qed.

Lemma dict_pop_absent (k : string) (d : dict) :
  dict_mem k d = false -> dict_pop k d = d.
Proof.
  unfold dict_pop, dict_mem. induction d as [|[k' v'] d IH]; simpl; [reflexivity|].
  destruct (String.eqb k k') eqn:E; [discriminate|].
  intros H. simpl. rewrite (IH H). reflexivity.
Qed.

Lemma dict_pop_idem (k : string) (d : dict) : dict_pop k (dict_pop k d) = dict_pop k d.
Proof.
  unfold dict_pop. induction d as [|[k' v'] d IH]; simpl; [reflexivity|].
  destruct (String.eqb k k') eqn:E; simpl; [exact IH|].
  rewrite E. simpl. rewrite IH. reflexivity.
Qed.

(** ** The validator, check by check *)

Lemma check_required_dict (p : dict) :
  forall fields errs,
    check_required fields (VDict p) errs
    = Ok (errs ++ map (fun f => "Missing required field: " ++ f)%string
                      (filter (fun f => negb (dict_mem f p)) fields))%list.
Proof.
  induction fields as [|f r IH]; intros errs; simpl.
  - rewrite app_nil_r. reflexivity.
  - rewrite IH. destruct (dict_mem f p); simpl; [reflexivity|].
    rewrite <- app_assoc. reflexivity.
Qed.

Lemma check_timestamp_dict (now : clock) (p : dict) (errs : list string) :
  match dict_get "timestamp" p with
  | Some (VStr _) | None => True
  | _ => False
  end ->
  check_timestamp now (VDict p) errs = Ok (errs ++ freshness_errors now p)%list.
Proof.
  unfold check_timestamp, freshness_errors, py_contains, py_index, dict_index, dict_mem,
    DT.fromisoformat.
  destruct (dict_get "timestamp" p) as [[| | | |s| |]|]; simpl; intros H; try contradiction.
  - destruct (DT.parse_iso _) as [t|]; [|reflexivity].
    destruct (max_age_us <? _); [reflexivity | rewrite app_nil_r; reflexivity].
  - rewrite app_nil_r. reflexivity.
Qed.

Lemma check_replay_dict (p : dict) (seen : request_set) (errs : list string) :
  match dict_get_default "meta" (VDict []) p with
  | VDict m =>
      let r := dict_get_default "request_id" VNone m in
      negb (truthy r) || hashable r = true
  | _ => False
  end ->
  check_replay (VDict p) seen errs
  = (Ok (errs ++ replay_errors seen p)%list, replay_set_after seen p).
Proof.
  unfold check_replay, get_request_id, replay_errors, replay_set_after, request_id_of.
  destruct (dict_get_default "meta" (VDict []) p) as [| | | | | |m]; try contradiction.
  cbv zeta. intros H.
  destruct (truthy (dict_get_default "request_id" VNone m)) eqn:Et; simpl in *.
  - rewrite H. unfold set_add.
    destruct (set_mem _ seen) eqn:Em; simpl; [reflexivity|].
    rewrite app_nil_r. reflexivity.
  - rewrite app_nil_r. reflexivity.
Qed.

Lemma verify_signature_dict (key : string) (p : dict) (received : string) :
  is_ascii (strip_prefix_tag received) = true ->
  _verify_signature key (VDict p) received
  = Ok (String.eqb (strip_prefix_tag (sign_bytes key (dict_pop "signature" p)))
                   (strip_prefix_tag received)).
Proof.
  intros H. unfold _verify_signature, compare_digest, v_generate_signature.
  fold (strip_prefix_tag received).
  fold (strip_prefix_tag (sign_bytes key (dict_pop "signature" p))).
  pose proof (strip_prefix_tag_ascii _ (sign_bytes_ascii key (dict_pop "signature" p))) as H1.
  unfold is_ascii in H1, H. rewrite H1, H. reflexivity.
Qed.

Lemma well_typed_dict (p : dict) :
  well_typed (VDict p) = true ->
  match dict_get "timestamp" p with
  | Some (VStr _) | None => True
  | _ => False
  end
  /\ match dict_get_default "meta" (VDict []) p with
     | VDict m =>
         let r := dict_get_default "request_id" VNone m in
         negb (truthy r) || hashable r = true
     | _ => False
     end.
Proof.
  unfold well_typed. intros H. apply andb_prop in H. destruct H as [H1 H2]. split.
  - destruct (dict_get "timestamp" p) as [[| | | |s| |]|]; try discriminate; exact I.
  - destruct (dict_get_default "meta" (VDict []) p); try discriminate. exact H2.
Qed.

Lemma validate_payload_dict (self : validator) (now : clock) (p : dict) (received : string) :
  well_typed (VDict p) = true ->
  is_ascii (strip_prefix_tag received) = true ->
  validate_payload self now (VDict p) received
  = (Ok {| valid := Nat.eqb (List.length (all_errors self now p received)) 0;
           errors := all_errors self now p received |},
     {| v_secret_key := v_secret_key self;
        processed_requests := replay_set_after (processed_requests self) p |}).
Proof.
  intros Hwt Hasc. apply well_typed_dict in Hwt. destruct Hwt as [Hts Hmeta].
  unfold validate_payload.
  rewrite check_required_dict. simpl app.
  rewrite (check_timestamp_dict now p _ Hts).
  rewrite (check_replay_dict p _ _ Hmeta).
  rewrite (verify_signature_dict _ p received Hasc).
  unfold all_errors, signature_errors. fold (structural_errors p).
  destruct (String.eqb _ _).
  - rewrite app_nil_r. rewrite <- !app_assoc. reflexivity.
  - rewrite <- !app_assoc. reflexivity.
Qed.

Lemma check_timestamp_ok_inv (now : clock) (p : dict) (errs errs' : list string) :
  check_timestamp now (VDict p) errs = Ok errs' ->
  match dict_get "timestamp" p with
  | Some (VStr _) | None => true
  | _ => false
  end = true.
Proof.
  unfold check_timestamp, py_contains, py_index, dict_index, dict_mem.
  destruct (dict_get "timestamp" p) as [[| | | |s| |]|]; simpl; intros H;
    try discriminate; reflexivity.
Qed.

Lemma check_replay_ok_inv (p : dict) (seen : request_set) (errs errs' : list string) :
  fst (check_replay (VDict p) seen errs) = Ok errs' ->
  match dict_get_default "meta" (VDict []) p with
  | VDict m =>
      let r := dict_get_default "request_id" VNone m in
      negb (truthy r) || hashable r
  | _ => false
  end = true.
Proof.
  unfold check_replay, get_request_id.
  destruct (dict_get_default "meta" (VDict []) p) as [| | | | | |m]; simpl;
    intros H; try discriminate.
  destruct (truthy _); simpl; [|reflexivity].
  destruct (hashable _); simpl in *; [reflexivity | discriminate].
Qed.

Lemma verify_signature_ok_inv (key : string) (p : dict) (received : string) (b : bool) :
  _verify_signature key (VDict p) received = Ok b ->
  is_ascii (strip_prefix_tag received) = true.
Proof.
  unfold _verify_signature, compare_digest. fold (strip_prefix_tag received).
  unfold is_ascii.
  destruct (str_forall is_ascii_char (strip_prefix_tag received)).
  - reflexivity.
  - rewrite andb_false_r. discriminate.
Qed.

Lemma validate_payload_ok_inv (self : validator) (now : clock) (p : dict)
    (received : string) (v : verdict) :
  fst (validate_payload self now (VDict p) received) = Ok v ->
  well_typed (VDict p) = true /\ is_ascii (strip_prefix_tag received) = true.
Proof.
  unfold validate_payload.
  destruct (check_required required_fields (VDict p) []) as [e1|x]; [|discriminate].
  destruct (check_timestamp now (VDict p) e1) as [e2|x] eqn:Ets; [|discriminate].
  destruct (check_replay (VDict p) (processed_requests self) e2) as [[e3|x] seen'] eqn:Er;
    [|discriminate].
  destruct (_verify_signature _ _ _) as [b|x] eqn:Ev; [|discriminate].
  intros _. split.
  - unfold well_typed. rewrite (check_timestamp_ok_inv _ _ _ _ Ets).
    apply (check_replay_ok_inv p (processed_requests self) e2 e3). rewrite Er. reflexivity.
  - exact (verify_signature_ok_inv _ _ _ _ Ev).
Qed.

(** ** Which check an error comes from *)

Lemma in_structural_errors (p : dict) (x : string) :
  In x (structural_errors p) <->
  exists f, In f required_fields /\ dict_mem f p = false
            /\ x = ("Missing required field: " ++ f)%string.
Proof.
  unfold structural_errors. rewrite in_map_iff. split.
  - intros [f [Hx Hf]]. apply filter_In in Hf. destruct Hf as [Hin Hm].
    exists f. repeat split; auto. now apply negb_true_iff.
  - intros [f [Hin [Hm Hx]]]. exists f. split; auto.
    apply filter_In. split; auto. now apply negb_true_iff.
Qed.

Lemma freshness_errors_cases (now : clock) (p : dict) :
  freshness_errors now p = []
  \/ freshness_errors now p = ["Timestamp too old"]
  \/ freshness_errors now p = ["Invalid timestamp format"].
Proof.
  unfold freshness_errors.
  destruct (dict_get "timestamp" p) as [[| | | |s| |]|]; auto.
  destruct (DT.parse_iso _); auto. destruct (max_age_us <? _); auto.
Qed.

Lemma replay_errors_cases (seen : request_set) (p : dict) :
  replay_errors seen p = [] \/ replay_errors seen p = [duplicate_error].
Proof. unfold replay_errors. destruct (_ && _); auto. Qed.

Lemma signature_errors_cases (key : string) (p : dict) (received : string) :
  signature_errors key p received = []
  \/ signature_errors key p received = ["Invalid signature"].
Proof. unfold signature_errors. destruct (String.eqb _ _); auto. Qed.

(** An error that is no "Missing required field" reason and is not produced
    by the three other checks either. *)
Ltac not_structural H :=
  apply in_structural_errors in H; destruct H as [? [_ [_ H]]]; discriminate H.


Lemma in_all_errors_replay (self : validator) (now : clock) (p : dict) (received : string) :
  In duplicate_error (all_errors self now p received)
  <-> In duplicate_error (replay_errors (processed_requests self) p).
Proof.
  unfold all_errors. rewrite !in_app_iff. split.
  - intros [H|[H|[H|H]]].
    + not_structural H.
    + destruct (freshness_errors_cases now p) as [E|[E|E]];
        rewrite E in H; simpl in H; try contradiction; destruct H as [H|[]]; discriminate H.
    + exact H.
    + destruct (signature_errors_cases (v_secret_key self) p received) as [E|E];
        rewrite E in H; simpl in H; try contradiction; destruct H as [H|[]]; discriminate H.
  - auto.
Qed.

Lemma length_zero_iff_nil {A : Type} (l : list A) :
  Nat.eqb (List.length l) 0 = true <-> l = [].
Proof. destruct l; simpl; split; intros H; try reflexivity; discriminate. Qed.

(** ** The replay set only grows *)

Lemma set_mem_add (x v : value) (s : request_set) :
  set_mem x s = true -> set_mem x (set_add v s) = true.
Proof.
  intros H. unfold set_add. destruct (set_mem v s); [exact H|].
  unfold set_mem in *. simpl. rewrite H. apply orb_true_r.
Qed.

Lemma check_replay_grows (payload : value) (seen : request_set) (errs : list string)
    (x : value) :
  set_mem x seen = true -> set_mem x (snd (check_replay payload seen errs)) = true.
Proof.
  intros H. unfold check_replay.
  destruct (get_request_id payload) as [r|e]; [|exact H].
  destruct (truthy r); [|exact H].
  destruct (hashable r); [|exact H].
  destruct (set_mem r seen); [exact H|]. simpl. apply set_mem_add. exact H.
Qed.

(** What a call leaves in the replay set: what it found there, or what the
    replay block made of it. *)
Lemma validate_payload_state (self : validator) (now : clock) (payload : value)
    (received : string) :
  snd (validate_payload self now payload received) = self
  \/ exists errs,
       snd (validate_payload self now payload received)
       = {| v_secret_key := v_secret_key self;
            processed_requests := snd (check_replay payload (processed_requests self) errs) |}.
Proof.
  unfold validate_payload.
  destruct (check_required required_fields payload []) as [e1|x]; [|left; reflexivity].
  destruct (check_timestamp now payload e1) as [e2|x]; [|left; reflexivity].
  right. exists e2.
  destruct (check_replay payload (processed_requests self) e2) as [[e3|x] seen']; simpl;
    [|reflexivity].
  destruct (_verify_signature _ _ _); reflexivity.
Qed.

Lemma validate_payload_key (self : validator) (now : clock) (payload : value)
    (received : string) :
  v_secret_key (snd (validate_payload self now payload received)) = v_secret_key self.
Proof.
  destruct (validate_payload_state self now payload received) as [E|[errs E]];
    rewrite E; reflexivity.
Qed.

Lemma validate_payload_grows (self : validator) (now : clock) (payload : value)
    (received : string) (x : value) :
  set_mem x (processed_requests self) = true ->
  set_mem x (processed_requests (snd (validate_payload self now payload received))) = true.
Proof.
  intros H.
  destruct (validate_payload_state self now payload received) as [E|[errs E]]; rewrite E.
  - exact H.
  - simpl. apply check_replay_grows. exact H.
Qed.

Lemma run_calls_grows (calls : list call) :
  forall (self : validator) (x : value),
    set_mem x (processed_requests self) = true ->
    set_mem x (processed_requests (run_calls self calls)) = true.
Proof.
  unfold run_calls. induction calls as [|c calls IH]; intros self x H; simpl.
  - exact H.
  - apply IH. apply validate_payload_grows. exact H.
Qed.

Lemma run_calls_key (calls : list call) :
  forall self : validator, v_secret_key (run_calls self calls) = v_secret_key self.
Proof.
  unfold run_calls. induction calls as [|c calls IH]; intros self; simpl.
  - reflexivity.
  - rewrite IH. apply validate_payload_key.
Qed.

(** On a typed envelope the replay set after the call does not depend on
    the signature, nor on what the other checks found. *)
Lemma validate_payload_replay_set (self : validator) (now : clock) (p : dict)
    (received : string) :
  well_typed (VDict p) = true ->
  processed_requests (snd (validate_payload self now (VDict p) received))
  = replay_set_after (processed_requests self) p.
Proof.
  intros Hwt. apply well_typed_dict in Hwt. destruct Hwt as [Hts Hmeta].
  unfold validate_payload. rewrite check_required_dict. simpl app.
  rewrite (check_timestamp_dict now p _ Hts).
  rewrite (check_replay_dict p _ _ Hmeta).
  destruct (_verify_signature _ _ _); reflexivity.
Qed.

(** ** The validator's claims *)

Lemma append_inj_l (s a b : string) : (s ++ a = s ++ b)%string -> a = b.
Proof.
  induction s as [|c s IH]; simpl; intros H; [exact H|].
  injection H as H. apply IH. exact H.
Qed.

Lemma is_ascii_strip (s : string) : is_ascii s = true -> is_ascii (strip_prefix_tag s) = true.
Proof. apply strip_prefix_tag_ascii. Qed.

Lemma in_all_errors_structural (self : validator) (now : clock) (p : dict)
    (received f : string) :
  In ("Missing required field: " ++ f)%string (all_errors self now p received)
  <-> In ("Missing required field: " ++ f)%string (structural_errors p).
Proof.
  unfold all_errors. rewrite !in_app_iff. split.
  - intros [H|[H|[H|H]]].
    + exact H.
    + destruct (freshness_errors_cases now p) as [E|[E|E]];
        rewrite E in H; simpl in H; try contradiction; destruct H as [H|[]]; discriminate H.
    + destruct (replay_errors_cases (processed_requests self) p) as [E|E];
        rewrite E in H; simpl in H; try contradiction; destruct H as [H|[]]; discriminate H.
    + destruct (signature_errors_cases (v_secret_key self) p received) as [E|E];
        rewrite E in H; simpl in H; try contradiction; destruct H as [H|[]]; discriminate H.
  - auto.
Qed.

(** C5. [validate_payload] runs the structural, freshness, replay and
    signature checks on every call, none cutting the others short: on a typed
    envelope it returns a verdict whose errors are the reasons of the four
    checks one after the other, a reason per missing field and at most one
    reason for each other check; [valid] holds exactly when that list is
    empty; an envelope without [data] whose signature does not verify reports
    both "Missing required field: data" and "Invalid signature". *)
Theorem C5_checks_do_not_short_circuit
    (self : validator) (now : clock) (p : dict) (received : string) :
  well_typed (VDict p) = true ->
  is_ascii received = true ->
  exists v,
    fst (validate_payload self now (VDict p) received) = Ok v
    /\ errors v
       = (structural_errors p ++ freshness_errors now p
          ++ replay_errors (processed_requests self) p
          ++ signature_errors (v_secret_key self) p received)%list
    /\ (forall f, In f required_fields ->
          (In ("Missing required field: " ++ f)%string (errors v) <-> dict_mem f p = false))
    /\ (List.length (freshness_errors now p) <= 1
        /\ List.length (replay_errors (processed_requests self) p) <= 1
        /\ List.length (signature_errors (v_secret_key self) p received) <= 1)%nat
    /\ (valid v = true <-> errors v = [])
    /\ (dict_mem "data" p = false ->
        _verify_signature (v_secret_key self) (VDict p) received = Ok false ->
        In "Missing required field: data" (errors v) /\ In "Invalid signature" (errors v)).
Proof.
  intros Hwt Hasc. apply is_ascii_strip in Hasc.
  rewrite (validate_payload_dict self now p received Hwt Hasc).
  eexists. split; [reflexivity|]. cbn [errors valid fst].
  split; [reflexivity|]. fold (all_errors self now p received).
  split; [|split; [|split]].
  - intros f Hf. rewrite in_all_errors_structural, in_structural_errors. split.
    + intros [f' [_ [Hm E]]]. apply append_inj_l in E. subst f'. exact Hm.
    + intros Hm. exists f. auto.
  - repeat split.
    + destruct (freshness_errors_cases now p) as [E|[E|E]]; rewrite E; simpl; lia.
    + destruct (replay_errors_cases (processed_requests self) p) as [E|E];
        rewrite E; simpl; lia.
    + destruct (signature_errors_cases (v_secret_key self) p received) as [E|E];
        rewrite E; simpl; lia.
  - apply length_zero_iff_nil.
  - intros Hdata Hsig. split.
    + apply (in_all_errors_structural self now p received "data").
      apply in_structural_errors. exists "data". repeat split; auto.
      simpl. auto.
    + rewrite (verify_signature_dict _ p received Hasc) in Hsig.
      injection Hsig as Hsig. unfold all_errors, signature_errors. rewrite Hsig.
      rewrite !in_app_iff. right. right. right. left. reflexivity.
Qed.

Lemma C5_checks_do_not_short_circuit_witness :
  exists v,
    fst (validate_payload sample_validator (sample_clock 10)
           envelope_without_data bogus_signature) = Ok v
    /\ In "Missing required field: data" (errors v)
    /\ In "Invalid signature" (errors v).
Proof.
  destruct (C5_checks_do_not_short_circuit sample_validator (sample_clock 10)
              (dict_of envelope_without_data) bogus_signature eq_refl eq_refl)
    as [v [H1 [_ [_ [_ [_ H6]]]]]].
  exists v. split; [exact H1|].
  apply H6; vm_compute; reflexivity.
Defined.



Lemma no_request_id_falsy (payload : value) :
  no_request_id payload ->
  exists p, payload = VDict p
            /\ get_request_id payload = Ok (request_id_of p)
            /\ truthy (request_id_of p) = false.
Proof.
  intros [p [-> H]]. exists p. split; [reflexivity|].
  unfold get_request_id, request_id_of, dict_get_default.
  destruct H as [H|[m [H Hr]]]; rewrite H.
  - simpl. auto.
  - destruct Hr as [Hr|[r [Hr Hf]]]; rewrite Hr; auto.
Qed.

Lemma check_replay_no_id (payload : value) (seen : request_set) (errs : list string) :
  no_request_id payload -> check_replay payload seen errs = (Ok errs, seen).
Proof.
  intros H. destruct (no_request_id_falsy payload H) as [p [-> [Hg Hf]]].
  unfold check_replay. rewrite Hg, Hf. reflexivity.
Qed.

Lemma validate_payload_no_id (self : validator) (now : clock) (payload : value)
    (received : string) :
  no_request_id payload ->
  processed_requests (snd (validate_payload self now payload received))
  = processed_requests self.
Proof.
  intros H.
  destruct (validate_payload_state self now payload received) as [E|[errs E]]; rewrite E.
  - reflexivity.
  - rewrite (check_replay_no_id payload _ errs H). reflexivity.
Qed.

Lemma run_calls_no_id (payload : value) (calls : list call) :
  no_request_id payload ->
  Forall (fun c => call_payload c = payload) calls ->
  forall self, processed_requests (run_calls self calls) = processed_requests self.
Proof.
  intros Hn. unfold run_calls. induction 1 as [|c calls Hc _ IH]; intros self; simpl.
  - reflexivity.
  - rewrite IH, Hc. apply validate_payload_no_id. exact Hn.
Qed.

(** C8. An envelope without [meta], or whose [meta] has no [request_id],
    or whose [request_id] is falsy, skips the replay check: however many
    times it has been validated, the replay set is the one the validator
    started with, a further call leaves it so and its verdict holds no replay
    error; on a typed envelope with an ASCII signature every such call
    returns a verdict. *)
Theorem C8_absent_request_id_skips_replay
    (self : validator) (payload : value) (calls : list call) :
  no_request_id payload ->
  Forall (fun c => call_payload c = payload) calls ->
  processed_requests (run_calls self calls) = processed_requests self
  /\ forall now received,
       processed_requests
         (snd (validate_payload (run_calls self calls) now payload received))
       = processed_requests self
       /\ (forall v,
             fst (validate_payload (run_calls self calls) now payload received) = Ok v ->
             ~ In duplicate_error (errors v))
       /\ (well_typed payload = true -> is_ascii received = true ->
           exists v,
             fst (validate_payload (run_calls self calls) now payload received) = Ok v).
Proof.
  intros Hn Hcalls.
  pose proof (run_calls_no_id payload calls Hn Hcalls self) as Hrun.
  split; [exact Hrun|]. intros now received.
  set (self' := run_calls self calls) in *.
  split; [|split].
  - rewrite (validate_payload_no_id self' now payload received Hn). exact Hrun.
  - intros v Hv. destruct (no_request_id_falsy payload Hn) as [p [-> [_ Hf]]].
    destruct (validate_payload_ok_inv self' now p received v Hv) as [Hwt Hasc].
    rewrite (validate_payload_dict self' now p received Hwt Hasc) in Hv.
    injection Hv as <-. cbn [errors].
    rewrite in_all_errors_replay. unfold replay_errors. rewrite Hf. simpl. tauto.
  - intros Hwt Hasc. destruct (no_request_id_falsy payload Hn) as [p [-> _]].
    rewrite (validate_payload_dict self' now p received Hwt (is_ascii_strip _ Hasc)).
    eexists. reflexivity.
Qed.

Lemma C8_absent_request_id_skips_replay_witness :
  processed_requests (run_calls sample_validator [empty_id_call; empty_id_call])
  = processed_requests sample_validator.
Proof.
  refine (proj1 (C8_absent_request_id_skips_replay sample_validator
                   (envelope_with_id (VStr EmptyString))
                   [empty_id_call; empty_id_call] _ _)).
  - eexists. split; [reflexivity|]. right. eexists. split; [reflexivity|].
    right. eexists. split; reflexivity.
  - repeat constructor.
Defined.

Lemma in_length_nonzero {A : Type} (x : A) (l : list A) :
  In x l -> Nat.eqb (List.length l) 0 = false.
Proof. destruct l; simpl; [contradiction | reflexivity]. Qed.

Lemma carries_request_id_of (payload : value) (rid : value) :
  carries_request_id payload rid ->
  exists p, payload = VDict p /\ request_id_of p = rid.
Proof.
  intros [p [m [-> [Hm Hr]]]]. exists p. split; [reflexivity|].
  unfold request_id_of, dict_get_default. rewrite Hm, Hr. reflexivity.
Qed.

Lemma truthy_nonempty (s : string) : s <> EmptyString -> truthy (VStr s) = true.
Proof.
  intros H. simpl. destruct (String.eqb s EmptyString) eqn:E; [|reflexivity].
  apply String.eqb_eq in E. contradiction.
Qed.

Lemma set_mem_head_str (s : string) (seen : request_set) :
  set_mem (VStr s) (VStr s :: seen) = true.
Proof. unfold set_mem. simpl. rewrite String.eqb_refl. reflexivity. Qed.

(** C3, as amended.  For every typed envelope whose [meta] carries a
    non-empty [request_id] string not yet in the replay set,
    [validate_payload] puts that identifier into the replay set whatever the
    received signature and whatever the other checks find, and every later
    call, after any calls in between, that presents a typed envelope with the
    same identifier returns a verdict that is not valid and holds "Duplicate
    request ID (replay attack)". *)
Theorem C3_request_id_recorded_then_rejected
    (self : validator) (now : clock) (payload : value) (received rid : string) :
  well_typed payload = true ->
  carries_request_id payload (VStr rid) ->
  rid <> EmptyString ->
  set_mem (VStr rid) (processed_requests self) = false ->
  set_mem (VStr rid)
    (processed_requests (snd (validate_payload self now payload received))) = true
  /\ forall calls now' payload' received',
       well_typed payload' = true ->
       carries_request_id payload' (VStr rid) ->
       is_ascii received' = true ->
       exists v,
         fst (validate_payload
                (run_calls (snd (validate_payload self now payload received)) calls)
                now' payload' received') = Ok v
         /\ In duplicate_error (errors v)
         /\ valid v = false.
Proof.
  intros Hwt Hc Hne Hnew.
  destruct (carries_request_id_of payload _ Hc) as [p [-> Hrid]].
  assert (Hin : set_mem (VStr rid)
                  (processed_requests (snd (validate_payload self now (VDict p) received)))
                = true).
  { rewrite (validate_payload_replay_set self now p received Hwt).
    unfold replay_set_after. rewrite Hrid, (truthy_nonempty rid Hne), Hnew. simpl andb.
    cbv iota. apply set_mem_head_str. }
  split; [exact Hin|].
  intros calls now' payload' received' Hwt' Hc' Hasc'.
  destruct (carries_request_id_of payload' _ Hc') as [p' [-> Hrid']].
  set (self' := run_calls _ calls).
  assert (Hseen : set_mem (VStr rid) (processed_requests self') = true)
    by (apply run_calls_grows; exact Hin).
  rewrite (validate_payload_dict self' now' p' received' Hwt' (is_ascii_strip _ Hasc')).
  eexists. split; [reflexivity|]. cbn [errors valid].
  assert (Hdup : In duplicate_error (all_errors self' now' p' received')).
  { apply in_all_errors_replay. unfold replay_errors.
    rewrite Hrid', (truthy_nonempty rid Hne), Hseen. simpl. auto. }
  split; [exact Hdup|]. exact (in_length_nonzero _ _ Hdup).
Qed.

Lemma C3_request_id_recorded_then_rejected_witness :
  set_mem (VStr "req_1")
    (processed_requests
       (snd (validate_payload sample_validator (sample_clock 10)
               (envelope_with_id (VStr "req_1")) bogus_signature))) = true.
Proof.
  refine (proj1 (C3_request_id_recorded_then_rejected sample_validator (sample_clock 10)
                   (envelope_with_id (VStr "req_1")) bogus_signature "req_1"
                   eq_refl _ _ eq_refl)).
  - eexists. eexists. split; [reflexivity|]. split; reflexivity.
  - discriminate.
Defined.

(** C3 as stated fails: an envelope whose [meta] carries the empty string
    as [request_id], not in the replay set, is validated without the
    identifier being put into the set, and a second call with the same
    identifier records no replay error. *)
Lemma C3_empty_request_id_counterexample :
  carries_request_id (envelope_with_id (VStr EmptyString)) (VStr EmptyString)
  /\ set_mem (VStr EmptyString) (processed_requests sample_validator) = false
  /\ fst empty_id_first_call
     = Ok {| valid := false; errors := ["Invalid signature"] |}
  /\ set_mem (VStr EmptyString) (processed_requests (snd empty_id_first_call)) = false
  /\ fst empty_id_second_call
     = Ok {| valid := false; errors := ["Invalid signature"] |}
  /\ ~ In duplicate_error ["Invalid signature"].
Proof.
  split.
  - eexists. eexists. split; [reflexivity|]. split; reflexivity.
  - repeat split; try (vm_compute; reflexivity).
    simpl. intros [H|[]]. discriminate H.
Qed.

Lemma check_required_total (payload : value) :
  (exists b, forall k, py_contains k payload = Ok (b k)) ->
  forall fields errs, exists errs', check_required fields payload errs = Ok errs'.
Proof.
  intros [b Hb]. induction fields as [|f r IH]; intros errs; simpl.
  - eexists. reflexivity.
  - rewrite Hb. simpl. apply IH.
Qed.

Lemma validator_eta (self : validator) :
  {| v_secret_key := v_secret_key self; processed_requests := processed_requests self |}
  = self.
Proof. destruct self. reflexivity. Qed.

(** What a list or a string does to a call: the loop over the required
    fields runs, then the call raises. *)
Lemma validate_payload_sequence (self : validator) (now : clock) (payload : value)
    (received : string) :
  (exists b, forall k, py_contains k payload = Ok (b k)) ->
  (forall k, py_index k payload = Raise TypeError) ->
  get_request_id payload = Raise AttributeError ->
  (fst (validate_payload self now payload received) = Raise TypeError
   \/ fst (validate_payload self now payload received) = Raise AttributeError)
  /\ snd (validate_payload self now payload received) = self.
Proof.
  intros Hc Hi Hg. unfold validate_payload.
  destruct (check_required_total payload Hc required_fields []) as [e1 ->].
  unfold check_timestamp, check_replay. destruct Hc as [b Hb].
  rewrite Hb, Hi, Hg. simpl.
  destruct (b "timestamp"); simpl.
  - auto.
  - rewrite validator_eta. auto.
Qed.

(** C7, as amended.  When the input of [validate_payload] is not a mapping
    the call returns no verdict: it raises [TypeError] or [AttributeError]
    and leaves the validator as it was.  No malformed-envelope error is
    reported. *)
Theorem C7_non_mapping_raises
    (self : validator) (now : clock) (payload : value) (received : string) :
  (forall p, payload <> VDict p) ->
  (fst (validate_payload self now payload received) = Raise TypeError
   \/ fst (validate_payload self now payload received) = Raise AttributeError)
  /\ snd (validate_payload self now payload received) = self.
Proof.
  intros Hnot. destruct payload as [|b|n|f|s|l|p].
  - split; [left|]; reflexivity.
  - split; [left|]; reflexivity.
  - split; [left|]; reflexivity.
  - split; [left|]; reflexivity.
  - apply validate_payload_sequence; try reflexivity.
    exists (fun k => str_contains k s). reflexivity.
  - apply validate_payload_sequence; try reflexivity.
    exists (fun k => existsb (py_eq (VStr k)) l). reflexivity.
  - exfalso. apply (Hnot p). reflexivity.
Qed.

Lemma C7_non_mapping_raises_witness :
  snd (validate_payload sample_validator (sample_clock 10) VNone bogus_signature)
  = sample_validator.
Proof.
  refine (proj2 (C7_non_mapping_raises sample_validator (sample_clock 10) VNone
                   bogus_signature _)).
  intros p. discriminate.
Defined.

(** C7 as stated fails: a list is not a mapping, the loop over the
    required fields runs on it all the same, as a membership test over its
    elements, and the call then raises [AttributeError] instead of returning
    a verdict that reports a malformed envelope; [None] raises [TypeError]. *)
Lemma C7_malformed_envelope_counterexample :
  check_required required_fields (VList [VStr "event"; VStr "data"]) []
  = Ok [ "Missing required field: timestamp"; "Missing required field: source";
         "Missing required field: meta" ]
  /\ fst list_payload_call = Raise AttributeError
  /\ (forall v, fst list_payload_call <> Ok v)
  /\ fst (validate_payload sample_validator (sample_clock 10) VNone bogus_signature)
     = Raise TypeError.
Proof.
  split; [vm_compute; reflexivity|].
  split; [vm_compute; reflexivity|].
  split; [|vm_compute; reflexivity].
  intros v. replace (fst list_payload_call) with (@Raise verdict AttributeError)
    by (vm_compute; reflexivity).
  discriminate.
Qed.

(** ** The builder: data reduction *)

Lemma dict_get_set_same (k : string) (v : value) (d : dict) :
  dict_get k (dict_set k v d) = Some v.
Proof.
  induction d as [|[k' v'] d IH]; simpl.
  - rewrite String.eqb_refl. reflexivity.
  - destruct (String.eqb k k') eqn:E; simpl; rewrite E; [reflexivity | exact IH].
Qed.

Lemma dict_get_set_other (k k' : string) (v : value) (d : dict) :
  k' <> k -> dict_get k' (dict_set k v d) = dict_get k' d.
Proof.
  intros Hne. induction d as [|[k0 v0] d IH]; simpl.
  - destruct (String.eqb k' k) eqn:E; [|reflexivity].
    apply String.eqb_eq in E. contradiction.
  - destruct (String.eqb k k0) eqn:E; simpl.
    + apply String.eqb_eq in E. subst k0.
      destruct (String.eqb k' k) eqn:E'; [|reflexivity].
      apply String.eqb_eq in E'. contradiction.
    + rewrite IH. reflexivity.
Qed.

Lemma optimize_standard (d : dict) :
  _optimize_data_for_profile (VDict d) "standard"
  = if dict_mem "detection_details" (standard_kept d) then
      details <- dict_index "detection_details" (standard_kept d) ;;
      c <- _compress_detection_details details ;;
      Ok (VDict (dict_set "detection_details" c (standard_kept d)))
    else Ok (VDict (standard_kept d)).
Proof. reflexivity. Qed.

Lemma standard_kept_get (k : string) (d : dict) :
  dict_get k (standard_kept d)
  = if str_mem k excluded_fields then None else dict_get k d.
Proof.
  unfold standard_kept.
  rewrite (dict_get_filter_keys (fun k => negb (str_mem k excluded_fields))).
  destruct (str_mem k excluded_fields); reflexivity.
Qed.

Lemma str_mem_In (k : string) (l : list string) : str_mem k l = true <-> In k l.
Proof.
  unfold str_mem. rewrite existsb_exists. split.
  - intros [x [Hin E]]. apply String.eqb_eq in E. subst. exact Hin.
  - intros H. exists k. split; [exact H | apply String.eqb_refl].
Qed.

Lemma compress_bbox_spec (o base co : dict) :
  dict_get "bbox" base = None ->
  compress_bbox o base = Ok co ->
  (forall k, k <> "bbox" -> dict_get k co = dict_get k base)
  /\ match dict_get "bounding_box" o with
     | Some (VDict b) =>
         exists x y w h,
           py_int (dict_get_default "x" (VInt 0) b) = Ok x
           /\ py_int (dict_get_default "y" (VInt 0) b) = Ok y
           /\ py_int (dict_get_default "width" (VInt 0) b) = Ok w
           /\ py_int (dict_get_default "height" (VInt 0) b) = Ok h
           /\ dict_get "bbox" co = Some (VList [VInt x; VInt y; VInt w; VInt h])
     | Some (VList l) =>
         exists ints,
           map_result py_int l = Ok ints
           /\ dict_get "bbox" co = Some (VList (map VInt ints))
     | _ => dict_get "bbox" co = None
     end.
Proof.
  intros Hbase. unfold compress_bbox, dict_mem, dict_index.
  destruct (dict_get "bounding_box" o) as [bbox|]; simpl.
  - destruct bbox as [| | | | |l|b]; simpl.
    1-5: intros H; injection H as <-; split; [reflexivity | exact Hbase].
    + destruct (map_result py_int l) as [ints|x]; simpl; [|discriminate].
      intros H. injection H as <-. split.
      * intros k Hk. apply dict_get_set_other. exact Hk.
      * exists ints. split; [reflexivity | apply dict_get_set_same].
    + destruct (py_int (dict_get_default "x" (VInt 0) b)) as [x|?]; simpl; [|discriminate].
      destruct (py_int (dict_get_default "y" (VInt 0) b)) as [y|?]; simpl; [|discriminate].
      destruct (py_int (dict_get_default "width" (VInt 0) b)) as [w|?]; simpl; [|discriminate].
      destruct (py_int (dict_get_default "height" (VInt 0) b)) as [h|?]; simpl; [|discriminate].
      intros H. injection H as <-. split.
      * intros k Hk. apply dict_get_set_other. exact Hk.
      * exists x, y, w, h. repeat split. apply dict_get_set_same.
  - intros H. injection H as <-. split; [reflexivity | exact Hbase].
Qed.

Lemma dict_mem_three (k : string) (co : dict) (ty conf : value) :
  (forall k', k' <> "bbox" -> dict_get k' co = dict_get k' [("type", ty); ("conf", conf)]) ->
  dict_mem k co = true -> k = "type" \/ k = "conf" \/ k = "bbox".
Proof.
  intros H Hm. destruct (String.eqb k "bbox") eqn:Eb.
  - apply String.eqb_eq in Eb. auto.
  - apply String.eqb_neq in Eb. unfold dict_mem in Hm. rewrite (H k Eb) in Hm.
    simpl in Hm.
    destruct (String.eqb k "type") eqn:E1; [apply String.eqb_eq in E1; auto|].
    destruct (String.eqb k "conf") eqn:E2; [apply String.eqb_eq in E2; auto|].
    discriminate.
Qed.

Lemma compress_object_spec (obj : value) (r : option value) :
  compress_object obj = Ok r ->
  match r with
  | Some c => confident obj = true /\ compressed_form obj c
  | None => confident obj = false
  end.
Proof.
  unfold compress_object, confident. destruct obj as [| | | | | |o]; try discriminate.
  destruct (py_ge_float _ _) as [[|]|x]; simpl; try discriminate.
  - unfold dict_index.
    destruct (dict_get "type" o) as [ty|] eqn:Ety; simpl; [|discriminate].
    destruct (dict_get "confidence" o) as [cf|] eqn:Ecf; simpl; [|discriminate].
    destruct (py_round2 cf) as [conf|x] eqn:Er; simpl; [|discriminate].
    destruct (compress_bbox o _) as [co|x] eqn:Eb; simpl; [|discriminate].
    intros H. injection H as <-. split; [reflexivity|].
    destruct (compress_bbox_spec o [("type", ty); ("conf", conf)] co eq_refl Eb)
      as [Hk Hbb].
    exists o, co, ty, cf, conf. repeat split; auto.
    + rewrite Hk by discriminate. reflexivity.
    + rewrite Hk by discriminate. reflexivity.
    + intros k. apply (dict_mem_three k co ty conf Hk).
  - intros H. injection H as <-. reflexivity.
Qed.

Lemma compress_objects_spec (objs : list value) :
  forall acc outs,
    compress_objects objs acc = Ok outs ->
    exists news, outs = (acc ++ news)%list
                 /\ Forall2 compressed_form (filter confident objs) news.
Proof.
  induction objs as [|obj objs IH]; intros acc outs; simpl.
  - intros H. injection H as <-. exists []. rewrite app_nil_r. split; constructor.
  - destruct (compress_object obj) as [r|x] eqn:E; simpl; [|discriminate].
    pose proof (compress_object_spec obj r E) as Hs. intros H.
    destruct (IH _ _ H) as [news [-> HF]]. destruct r as [c|].
    + destruct Hs as [Hc Hf]. rewrite Hc. exists (c :: news). split.
      * rewrite <- app_assoc. reflexivity.
      * constructor; assumption.
    + rewrite Hs. exists news. split; [reflexivity | exact HF].
Qed.

Lemma compress_objects_raise (pre post : list value) (obj : value) (x : exn) :
  Forall (fun o => is_ok (compress_object o) = true) pre ->
  compress_object obj = Raise x ->
  forall acc, compress_objects (pre ++ obj :: post) acc = Raise x.
Proof.
  intros Hpre Hobj. induction Hpre as [|o pre Ho _ IH]; intros acc; simpl.
  - rewrite Hobj. reflexivity.
  - destruct (compress_object o); [|discriminate]. simpl. apply IH.
Qed.

Lemma compress_details_dict (dd : dict) :
  _compress_detection_details (VDict dd)
  = match dict_get "objects" dd with
    | Some objs =>
        items <- py_iter objs ;;
        out <- compress_objects items [] ;;
        Ok (VDict [("objects", VList out)])
    | None => Ok (VDict [])
    end.
Proof.
  unfold _compress_detection_details, py_contains, py_index, dict_index, dict_mem.
  destruct (dict_get "objects" dd); reflexivity.
Qed.



(** The detection details of the standard-profile output. *)
Lemma optimize_standard_details (d dd : dict) (out : value) :
  dict_get "detection_details" d = Some (VDict dd) ->
  _optimize_data_for_profile (VDict d) "standard" = Ok out ->
  exists c,
    _compress_detection_details (VDict dd) = Ok c
    /\ out = VDict (dict_set "detection_details" c (standard_kept d)).
Proof.
  intros Hd. rewrite optimize_standard. unfold dict_mem, dict_index.
  rewrite standard_kept_get. simpl str_mem. cbv iota. rewrite Hd. simpl bind.
  destruct (_compress_detection_details (VDict dd)) as [c|x]; simpl; [|discriminate].
  intros H. injection H as <-. exists c. auto.
Qed.

Lemma optimize_standard_shape (d : dict) (out : value) :
  _optimize_data_for_profile (VDict d) "standard" = Ok out ->
  exists o,
    out = VDict o
    /\ forall k, k <> "detection_details" -> dict_get k o = dict_get k (standard_kept d).
Proof.
  rewrite optimize_standard.
  destruct (dict_mem "detection_details" (standard_kept d)).
  - destruct (dict_index _ _) as [details|x]; simpl; [|discriminate].
    destruct (_compress_detection_details details) as [c|x]; simpl; [|discriminate].
    intros H. injection H as <-. eexists. split; [reflexivity|].
    intros k Hk. apply dict_get_set_other. exact Hk.
  - intros H. injection H as <-. eexists. split; reflexivity.
Qed.



Lemma compress_details_keys (dd : dict) (c : value) :
  _compress_detection_details (VDict dd) = Ok c ->
  exists cd,
    c = VDict cd
    /\ (forall k, dict_mem k cd = true -> k = "objects")
    /\ (List.length cd <= 1)%nat
    /\ (dict_mem "objects" dd = false -> cd = []).
Proof.
  rewrite compress_details_dict. unfold dict_mem.
  destruct (dict_get "objects" dd) as [objs|].
  - destruct (py_iter objs) as [items|x]; simpl; [|discriminate].
    destruct (compress_objects items []) as [outs|x]; simpl; [|discriminate].
    intros H. injection H as <-. eexists. split; [reflexivity|]. split; [|split].
    + intros k. simpl. destruct (String.eqb k "objects") eqn:E; [|discriminate].
      intros _. apply String.eqb_eq. exact E.
    + simpl. lia.
    + discriminate.
  - intros H. injection H as <-. exists []. split; [reflexivity|]. split; [|split].
    + discriminate.
    + simpl. lia.
    + reflexivity.
Qed.

(** C9. Under profile "standard", when the data holds a
    [detection_details] mapping, every key of it other than [objects] is gone
    from the output: the compressed [detection_details] holds at most the one
    key [objects], and it is the empty mapping when the input has no [objects]
    key, in which case the reduction does return. *)
Theorem C9_detection_details_keeps_only_objects (d dd : dict) :
  dict_get "detection_details" d = Some (VDict dd) ->
  (forall out,
      _optimize_data_for_profile (VDict d) "standard" = Ok out ->
      exists o c,
        out = VDict o
        /\ dict_get "detection_details" o = Some (VDict c)
        /\ (forall k, dict_mem k c = true -> k = "objects")
        /\ (List.length c <= 1)%nat
        /\ (dict_mem "objects" dd = false -> c = []))
  /\ (dict_mem "objects" dd = false ->
      exists o,
        _optimize_data_for_profile (VDict d) "standard" = Ok (VDict o)
        /\ dict_get "detection_details" o = Some (VDict [])).
Proof.
  intros Hd. split.
  - intros out Hout.
    destruct (optimize_standard_details d dd out Hd Hout) as [c [Hc ->]].
    destruct (compress_details_keys dd c Hc) as [cd [-> [Hk [Hl He]]]].
    eexists. exists cd. split; [reflexivity|]. split; [apply dict_get_set_same|].
    auto.
  - intros Hno. rewrite optimize_standard. unfold dict_mem at 1, dict_index.
    rewrite standard_kept_get. simpl str_mem. cbv iota. rewrite Hd. simpl bind.
    rewrite compress_details_dict. unfold dict_mem in Hno.
    destruct (dict_get "objects" dd); [discriminate|]. simpl.
    eexists. split; [reflexivity | apply dict_get_set_same].
Qed.

Lemma C9_detection_details_keeps_only_objects_witness :
  exists o,
    _optimize_data_for_profile
      (VDict [ ("frame_id", VStr "frame_456");
               ("detection_details", VDict [ ("model", VStr "v2") ]) ]) "standard"
    = Ok (VDict o)
    /\ dict_get "detection_details" o = Some (VDict []).
Proof.
  exact (proj2 (C9_detection_details_keeps_only_objects
                  [ ("frame_id", VStr "frame_456");
                    ("detection_details", VDict [ ("model", VStr "v2") ]) ]
                  [ ("model", VStr "v2") ] eq_refl) eq_refl).
Defined.

(** C10. [create_payload] is partial: under profile "standard", when the
    first entry of [detection_details.objects] that the loop cannot compress
    is a mapping whose confidence is at least 0.7 and which has no [type]
    key, the call raises [KeyError] for that key instead of returning an
    envelope. *)
Theorem C10_missing_type_raises
    (self : builder) (e : entropy) (event_type priority : string)
    (d dd o : dict) (pre post : list value) :
  dict_get "detection_details" d = Some (VDict dd) ->
  dict_get "objects" dd = Some (VList (pre ++ VDict o :: post)) ->
  Forall (fun x => is_ok (compress_object x) = true) pre ->
  py_ge_float (dict_get_default "confidence" (VInt 0) o) confidence_threshold = Ok true ->
  dict_mem "type" o = false ->
  create_payload self e event_type (VDict d) "standard" priority = Raise (KeyError "type").
Proof.
  intros Hd Hobjs Hpre Hconf Hty.
  assert (Hobj : compress_object (VDict o) = Raise (KeyError "type")).
  { unfold compress_object. rewrite Hconf. simpl. unfold dict_index.
    unfold dict_mem in Hty. destruct (dict_get "type" o); [discriminate | reflexivity]. }
  unfold create_payload. rewrite optimize_standard. unfold dict_mem, dict_index.
  rewrite standard_kept_get. simpl str_mem. cbv iota. rewrite Hd. simpl bind.
  rewrite compress_details_dict, Hobjs. simpl py_iter. simpl bind.
  rewrite (compress_objects_raise pre post (VDict o) _ Hpre Hobj). reflexivity.
Qed.

Lemma C10_missing_type_raises_witness :
  create_payload sample_builder sample_entropy "incident_detected"
    (sample_data [sample_object; untyped_object]) "standard" "medium"
  = Raise (KeyError "type").
Proof.
  refine (C10_missing_type_raises sample_builder sample_entropy "incident_detected" "medium"
            (dict_of (sample_data [sample_object; untyped_object]))
            [ ("objects", VList [sample_object; untyped_object]) ]
            (dict_of untyped_object) [sample_object] [] eq_refl eq_refl _ _ eq_refl).
  - repeat constructor.
  - vm_compute. reflexivity.
Defined.

(** ** Decimal fields: writing and reading back *)

Lemma code_inj_ne (c1 c2 : ascii) : code c1 <> code c2 -> c1 <> c2.
Proof. intros H E. subst. contradiction. Qed.

Lemma code_digit_char (d : Z) : 0 <= d < 10 -> code (digit_char d) = 48 + d.
Proof. intros H. unfold digit_char. apply code_chr. lia. Qed.

Lemma digit_char_is_digit (d : Z) : 0 <= d < 10 -> is_digit (digit_char d) = true.
Proof.
  intros H. unfold is_digit. rewrite (code_digit_char d H).
  apply andb_true_intro. split; apply Z.leb_le; lia.
Qed.

Lemma digit_char_val (d : Z) : 0 <= d < 10 -> digit_val (digit_char d) = d.
Proof. intros H. unfold digit_val. rewrite (code_digit_char d H). lia. Qed.

(** A decimal digit is none of the characters the formats give a meaning. *)
Lemma digit_char_not (d : Z) (c : ascii) :
  0 <= d < 10 -> (code c < 48 \/ 57 < code c) -> digit_char d <> c.
Proof.
  intros Hd Hc. apply code_inj_ne. rewrite (code_digit_char d Hd). lia.
Qed.

Lemma mod10_range (n : Z) : 0 <= n mod 10 < 10.
Proof. apply Z.mod_pos_bound. lia. Qed.

Lemma zfill_app (k : nat) : forall n r1 r2, (zfill k n r1 ++ r2)%string = zfill k n (r1 ++ r2).
Proof.
  induction k as [|k IH]; intros n r1 r2; simpl; [reflexivity|].
  rewrite IH. reflexivity.
Qed.

Lemma zfill_length (k : nat) :
  forall n rest, String.length (zfill k n rest) = (k + String.length rest)%nat.
Proof.
  induction k as [|k IH]; intros n rest; simpl; [reflexivity|].
  rewrite IH. simpl. lia.
Qed.

Lemma parse_digits_snoc (k : nat) :
  forall acc s,
    parse_digits (S k) acc s
    = match parse_digits k acc s with
      | Some (a, String c r) => if is_digit c then Some (10 * a + digit_val c, r) else None
      | _ => None
      end.
Proof.
  induction k as [|k IH]; intros acc s.
  - simpl. destruct s as [|c r]; [reflexivity|]. destruct (is_digit c); reflexivity.
  - change (parse_digits (S (S k)) acc s)
      with (match s with
            | String c r =>
                if is_digit c then parse_digits (S k) (10 * acc + digit_val c) r else None
            | EmptyString => None
            end).
    destruct s as [|c r]; [reflexivity|]. simpl parse_digits at 2.
    destruct (is_digit c); [|reflexivity]. apply IH.
Qed.

Lemma parse_digits_zfill (k : nat) :
  forall acc n rest,
    parse_digits k acc (zfill k n rest)
    = Some (acc * 10 ^ Z.of_nat k + n mod 10 ^ Z.of_nat k, rest).
Proof.
  induction k as [|k IH]; intros acc n rest.
  - simpl. rewrite Z.mod_1_r. f_equal. f_equal. lia.
  - rewrite parse_digits_snoc. cbn [zfill]. rewrite IH.
    rewrite (digit_char_is_digit _ (mod10_range n)).
    rewrite (digit_char_val _ (mod10_range n)).
    f_equal. f_equal.
    rewrite Nat2Z.inj_succ, Z.pow_succ_r by lia.
    rewrite (Z.rem_mul_r n 10 (10 ^ Z.of_nat k)) by lia. lia.
Qed.

Lemma parse_digits_zfill_small (k : nat) (n : Z) (rest : string) :
  0 <= n < 10 ^ Z.of_nat k ->
  parse_digits k 0 (zfill k n rest) = Some (n, rest).
Proof.
  intros H. rewrite parse_digits_zfill. rewrite Z.mod_small by exact H. reflexivity.
Qed.

(** ** Replacing and splitting around decimal fields *)

Lemma replace_char_skip (x : ascii) (new : string) (c : ascii) (r : string) :
  c <> x ->
  str_replace (String x EmptyString) new (String c r)
  = String c (str_replace (String x EmptyString) new r).
Proof.
  intros H. unfold str_replace. cbn [replace_from String.prefix].
  destruct (ascii_dec x c) as [E|E]; [subst; contradiction | reflexivity].
Qed.

Lemma replace_char_zfill (x : ascii) (new : string) (k : nat) :
  (code x < 48 \/ 57 < code x) ->
  forall n rest,
    str_replace (String x EmptyString) new (zfill k n rest)
    = zfill k n (str_replace (String x EmptyString) new rest).
Proof.
  intros Hx. induction k as [|k IH]; intros n rest; cbn [zfill]; [reflexivity|].
  rewrite IH. rewrite replace_char_skip; [reflexivity|].
  apply digit_char_not; [apply mod10_range | exact Hx].
Qed.

Lemma split_tz_skip (c : ascii) (r : string) :
  c <> "+"%char -> c <> "-"%char ->
  DT.split_tz (String c r) = (String c (fst (DT.split_tz r)), snd (DT.split_tz r)).
Proof.
  intros H1 H2. cbn [DT.split_tz].
  destruct (Ascii.eqb c "+") eqn:E1; [apply Ascii.eqb_eq in E1; contradiction|].
  destruct (Ascii.eqb c "-") eqn:E2; [apply Ascii.eqb_eq in E2; contradiction|].
  destruct (DT.split_tz r). reflexivity.
Qed.

Lemma split_tz_zfill (k : nat) :
  forall n rest,
    DT.split_tz (zfill k n rest)
    = (zfill k n (fst (DT.split_tz rest)), snd (DT.split_tz rest)).
Proof.
  induction k as [|k IH]; intros n rest; cbn [zfill].
  - destruct (DT.split_tz rest). reflexivity.
  - rewrite IH. rewrite split_tz_skip.
    + reflexivity.
    + apply digit_char_not; [apply mod10_range | vm_compute; left; reflexivity].
    + apply digit_char_not; [apply mod10_range | vm_compute; left; reflexivity].
Qed.

(** ** [isoformat] read back by [fromisoformat] *)

Lemma fields_ok_bounds (t : DT.datetime) :
  DT.fields_ok t = true ->
  0 <= DT.year t < 10 ^ 4 /\ 0 <= DT.month t < 10 ^ 2 /\ 0 <= DT.day t < 10 ^ 2
  /\ 0 <= DT.hour t < 10 ^ 2 /\ 0 <= DT.minute t < 10 ^ 2 /\ 0 <= DT.second t < 10 ^ 2
  /\ 0 <= DT.microsecond t < 10 ^ 6.
Proof.
  unfold DT.fields_ok. intros H.
  repeat (apply andb_prop in H; destruct H as [H ?]).
  repeat match goal with
         | H : (_ <=? _) = true |- _ => apply Z.leb_le in H
         | H : (_ <? _) = true |- _ => apply Z.ltb_lt in H
         end.
  assert (DT.days_in_month (DT.year t) (DT.month t) <= 31).
  { unfold DT.days_in_month.
    repeat match goal with |- context [if ?b then _ else _] => destruct b end; lia. }
  lia.
Qed.

Lemma iso_time_app (h mi s us : Z) (r1 r2 : string) :
  (DT.iso_time h mi s us r1 ++ r2)%string = DT.iso_time h mi s us (r1 ++ r2).
Proof.
  unfold DT.iso_time. repeat (rewrite zfill_app; cbn [append]).
  destruct (us =? 0); [reflexivity|]. cbn [append]. rewrite zfill_app. reflexivity.
Qed.

Lemma replace_char_iso_time (x : ascii) (new : string) (h mi s us : Z) (rest : string) :
  (code x < 48 \/ 57 < code x) -> x <> ":"%char -> x <> "."%char ->
  str_replace (String x EmptyString) new (DT.iso_time h mi s us rest)
  = DT.iso_time h mi s us (str_replace (String x EmptyString) new rest).
Proof.
  intros Hx H1 H2. unfold DT.iso_time.
  repeat (rewrite (replace_char_zfill x new _ Hx);
          try (rewrite replace_char_skip by congruence)).
  destruct (us =? 0); [reflexivity|].
  rewrite replace_char_skip by congruence.
  rewrite (replace_char_zfill x new _ Hx). reflexivity.
Qed.

Lemma split_tz_iso_time (h mi s us : Z) (rest : string) :
  DT.split_tz (DT.iso_time h mi s us rest)
  = (DT.iso_time h mi s us (fst (DT.split_tz rest)), snd (DT.split_tz rest)).
Proof.
  unfold DT.iso_time.
  repeat (rewrite split_tz_zfill; cbn [fst snd];
          try (rewrite split_tz_skip by discriminate; cbn [fst snd])).
  destruct (us =? 0).
  - destruct (DT.split_tz rest). reflexivity.
  - rewrite split_tz_skip by discriminate. cbn [fst snd].
    rewrite split_tz_zfill. reflexivity.
Qed.

Lemma expect_same (c : ascii) (r : string) : DT.expect c (String c r) = Some r.
Proof. unfold DT.expect. rewrite Ascii.eqb_refl. reflexivity. Qed.

Lemma parse_iso_time (h mi s us : Z) :
  0 <= h < 10 ^ 2 -> 0 <= mi < 10 ^ 2 -> 0 <= s < 10 ^ 2 -> 0 <= us < 10 ^ 6 ->
  DT.parse_hh_mm_ss_ff (DT.iso_time h mi s us EmptyString) = Some (h, mi, s, us).
Proof.
  intros Hh Hmi Hs Hus. unfold DT.parse_hh_mm_ss_ff, DT.iso_time.
  rewrite (parse_digits_zfill_small 2 h _ Hh). cbv beta iota zeta.
  rewrite expect_same.
  rewrite (parse_digits_zfill_small 2 mi _ Hmi). cbv beta iota zeta.
  rewrite expect_same.
  rewrite (parse_digits_zfill_small 2 s _ Hs). cbv beta iota zeta.
  destruct (us =? 0) eqn:E.
  - apply Z.eqb_eq in E. subst us. reflexivity.
  - rewrite expect_same. rewrite zfill_length. cbn [String.length Nat.add].
    rewrite (parse_digits_zfill_small 6 us _ Hus). reflexivity.
Qed.

(** The timestamp [create_payload] writes is read back by
    [validate_payload] as the same fields, in UTC. *)
Lemma timestamp_round_trip (t : DT.datetime) :
  DT.fields_ok t = true ->
  DT.tzinfo t = None ->
  DT.fromisoformat (str_replace "Z" "+00:00" (DT.isoformat t ++ "Z"))
  = Ok (DT.mk (DT.year t) (DT.month t) (DT.day t) (DT.hour t) (DT.minute t)
              (DT.second t) (DT.microsecond t) (Some 0)).
Proof.
  intros Hok Htz.
  destruct (fields_ok_bounds t Hok) as [Hy [Hmo [Hd [Hh [Hmi [Hs Hus]]]]]].
  assert (HZ : code "Z" < 48 \/ 57 < code "Z") by (right; vm_compute; reflexivity).
  unfold DT.fromisoformat, DT.isoformat, DT.isoformat_then. rewrite Htz.
  repeat (rewrite zfill_app; cbn [append]). rewrite iso_time_app. cbn [append].
  repeat (rewrite (replace_char_zfill "Z" _ _ HZ);
          try (rewrite replace_char_skip by discriminate)).
  rewrite (replace_char_iso_time "Z" "+00:00" _ _ _ _ _ HZ
             ltac:(discriminate) ltac:(discriminate)).
  change (str_replace "Z" "+00:00" "Z") with "+00:00".
  unfold DT.parse_iso.
  rewrite (parse_digits_zfill_small 4 _ _ Hy). cbn [fst snd]. rewrite expect_same.
  rewrite (parse_digits_zfill_small 2 _ _ Hmo). cbn [fst snd]. rewrite expect_same.
  rewrite (parse_digits_zfill_small 2 _ _ Hd). cbn [fst snd].
  unfold DT.parse_time. rewrite split_tz_iso_time.
  change (DT.split_tz "+00:00") with (EmptyString, Some (false, "00:00")).
  cbn [fst snd]. rewrite (parse_iso_time _ _ _ _ Hh Hmi Hs Hus).
  change (DT.parse_tz false "00:00") with (Some 0).
  cbv beta iota zeta.
  match goal with
  | |- context [DT.fields_ok ?x] => change (DT.fields_ok x) with (DT.fields_ok t)
  end.
  rewrite Hok. reflexivity.
Qed.

(** ** The envelope [create_payload] returns *)

Section SignedEnvelope.

Variables (self : builder) (e : entropy) (event_type : string) (d : value)
          (priority : string).

Lemma create_payload_signed (data : value) (profile : string) :
  _optimize_data_for_profile data profile = Ok d ->
  create_payload self e event_type data profile priority
  = Ok (VDict (signed_envelope self e event_type d priority)).
Proof. intros H. unfold create_payload. rewrite H. reflexivity. Qed.

Lemma signed_envelope_signature :
  py_index "signature" (VDict (signed_envelope self e event_type d priority))
  = Ok (VStr (_generate_signature self (base_payload self e event_type d priority))).
Proof. reflexivity. Qed.

Lemma signed_envelope_pop :
  dict_pop "signature" (signed_envelope self e event_type d priority)
  = base_payload self e event_type d priority.
Proof. reflexivity. Qed.

Lemma base_payload_pop :
  dict_pop "signature" (base_payload self e event_type d priority)
  = base_payload self e event_type d priority.
Proof. reflexivity. Qed.

Lemma signed_envelope_structural :
  structural_errors (signed_envelope self e event_type d priority) = [].
Proof. reflexivity. Qed.

Lemma signed_envelope_timestamp :
  dict_get "timestamp" (signed_envelope self e event_type d priority)
  = Some (VStr (DT.isoformat (utcnow e) ++ "Z")).
Proof. reflexivity. Qed.

Lemma signed_envelope_request_id :
  request_id_of (signed_envelope self e event_type d priority)
  = VStr (_generate_request_id e).
Proof. reflexivity. Qed.

Lemma signed_envelope_well_typed :
  well_typed (VDict (signed_envelope self e event_type d priority)) = true.
Proof. reflexivity. Qed.

Lemma signed_envelope_fresh (now : clock) :
  DT.fields_ok (utcnow e) = true ->
  DT.tzinfo (utcnow e) = None ->
  now_utc now - DT.wall_us (utcnow e) <= 300 * 1000000 ->
  freshness_errors now (signed_envelope self e event_type d priority) = [].
Proof.
  intros Hok Htz Hage. unfold freshness_errors. rewrite signed_envelope_timestamp.
  pose proof (timestamp_round_trip (utcnow e) Hok Htz) as Hrt.
  unfold DT.fromisoformat in Hrt.
  destruct (DT.parse_iso _) as [t|]; [|discriminate]. injection Hrt as ->.
  replace (max_age_us <? _) with false; [reflexivity|].
  symmetry. apply Z.ltb_ge. unfold DT.age_us, max_age_us. cbn [DT.tzinfo].
  change (DT.wall_us {| DT.year := _ |}) with (DT.wall_us (utcnow e)). lia.
Qed.

Lemma signed_envelope_signature_ok :
  signature_errors (secret_key self) (signed_envelope self e event_type d priority)
    (_generate_signature self (base_payload self e event_type d priority)) = [].
Proof.
  unfold signature_errors, _generate_signature.
  rewrite signed_envelope_pop, base_payload_pop, String.eqb_refl. reflexivity.
Qed.

End SignedEnvelope.

(** C2. For every event type, data, profile and priority, the envelope
    [create_payload] returns carries a signature with which a validator built
    on the same secret, with an empty replay set, at a time no more than 300
    seconds after the creation, accepts it: [valid] is true and the error
    list is empty; the request identifier is then in the replay set. *)
Theorem C2_created_envelope_validates
    (self : builder) (e : entropy) (now : clock)
    (event_type : string) (data : value) (profile priority : string) (payload : value) :
  DT.fields_ok (utcnow e) = true ->
  DT.tzinfo (utcnow e) = None ->
  create_payload self e event_type data profile priority = Ok payload ->
  now_utc now - DT.wall_us (utcnow e) <= 300 * 1000000 ->
  exists sig,
    py_index "signature" payload = Ok (VStr sig)
    /\ validate_payload (new_validator (secret_key self)) now payload sig
       = (Ok {| valid := true; errors := [] |},
          {| v_secret_key := secret_key self;
             processed_requests := [VStr (_generate_request_id e)] |}).
Proof.
  intros Hok Htz Hcreate Hage.
  destruct (_optimize_data_for_profile data profile) as [d|x] eqn:Hopt.
  - rewrite (create_payload_signed self e event_type d priority data profile Hopt)
      in Hcreate.
    injection Hcreate as <-.
    exists (_generate_signature self (base_payload self e event_type d priority)).
    split; [apply signed_envelope_signature|].
    rewrite validate_payload_dict.
    + unfold all_errors. cbn [new_validator v_secret_key processed_requests].
      rewrite signed_envelope_structural.
      rewrite (signed_envelope_fresh self e event_type d priority now Hok Htz Hage).
      rewrite signed_envelope_signature_ok.
      unfold replay_errors, replay_set_after. rewrite signed_envelope_request_id.
      reflexivity.
    + apply signed_envelope_well_typed.
    + apply strip_prefix_tag_ascii. apply sign_bytes_ascii.
  - unfold create_payload in Hcreate. rewrite Hopt in Hcreate. discriminate.
Qed.

Lemma C2_created_envelope_validates_witness :
  exists payload sig,
    create_payload sample_builder sample_entropy "incident_detected"
      (sample_data [sample_object; low_confidence_object]) "standard" "medium" = Ok payload
    /\ py_index "signature" payload = Ok (VStr sig)
    /\ fst (validate_payload sample_validator (sample_clock 299) payload sig)
       = Ok {| valid := true; errors := [] |}.
Proof.
  destruct (create_payload sample_builder sample_entropy "incident_detected"
              (sample_data [sample_object; low_confidence_object]) "standard" "medium")
    as [payload|x] eqn:Hc; [|vm_compute in Hc; discriminate Hc].
  destruct (C2_created_envelope_validates sample_builder sample_entropy (sample_clock 299)
              "incident_detected" (sample_data [sample_object; low_confidence_object])
              "standard" "medium" payload eq_refl eq_refl Hc
              ltac:(vm_compute; discriminate))
    as [sig [H1 H2]].
  exists payload, sig. split; [reflexivity|]. split; [exact H1|].
  change sample_validator with (new_validator (secret_key sample_builder)).
  rewrite H2. reflexivity.
Defined.

(** ** Serialization and key order *)

(** C1, as amended.  The serialization used for signing follows the
    insertion order of the keys: two envelopes that hold the same key-value
    pairs in the same order once the signature field is removed serialize to
    the same bytes, receive the same signature from the builder, and the
    validator's recomputation on the one accepts the builder's signature of
    the other; where the signature field sits, and what it holds, does not
    matter.  Key order is not normalised. *)
Theorem C1_same_order_same_signature (self : builder) (e1 e2 : dict) :
  dict_pop "signature" e1 = dict_pop "signature" e2 ->
  utf8_encode (json_dumps (VDict (dict_pop "signature" e1)))
  = utf8_encode (json_dumps (VDict (dict_pop "signature" e2)))
  /\ _generate_signature self e1 = _generate_signature self e2
  /\ _verify_signature (secret_key self) (VDict e2) (_generate_signature self e1) = Ok true
  /\ (forall s, _generate_signature self (dict_set "signature" s e1)
                = _generate_signature self e1).
Proof.
  intros H. split; [rewrite H; reflexivity|].
  split; [unfold _generate_signature; rewrite H; reflexivity|].
  split.
  - rewrite verify_signature_dict.
    + unfold _generate_signature. rewrite H, String.eqb_refl. reflexivity.
    + apply strip_prefix_tag_ascii. apply sign_bytes_ascii.
  - intros s. unfold _generate_signature. rewrite dict_pop_set. reflexivity.
Qed.

Lemma C1_same_order_same_signature_witness :
  _verify_signature (secret_key sample_builder) (VDict content_event_first)
    (_generate_signature sample_builder
       (dict_set "signature" (VStr bogus_signature) content_event_first)) = Ok true.
Proof.
  exact (proj1 (proj2 (proj2 (C1_same_order_same_signature sample_builder
                                (dict_set "signature" (VStr bogus_signature)
                                   content_event_first)
                                content_event_first eq_refl)))).
Defined.

(** C1 as stated fails: the two contents below are equal as key-value maps,
    each key once and with the same value in both, yet their keys were
    inserted in different orders, they serialize to different bytes and they
    receive different signatures. *)
Lemma C1_key_order_counterexample :
  py_eq (VDict content_event_first) (VDict content_data_first) = true
  /\ (forall k, dict_get k content_event_first = dict_get k content_data_first)
  /\ dict_wf content_event_first
  /\ dict_wf content_data_first
  /\ utf8_encode (json_dumps (VDict (dict_pop "signature" content_event_first)))
     <> utf8_encode (json_dumps (VDict (dict_pop "signature" content_data_first)))
  /\ _generate_signature sample_builder content_event_first
     = "sha256=+k+WDXa0OANf6I9IOnVeH56t7Ebx4/KXoFMPLfvjwQo="
  /\ _generate_signature sample_builder content_data_first
     = "sha256=142yCWZ/pATql2kb1rGpqWaJBc6tuw/ohFNitLWt+9U=".
Proof.
  split; [vm_compute; reflexivity|].
  split.
  { intros k. unfold content_event_first, content_data_first. cbn [dict_get].
    destruct (String.eqb k "event") eqn:E1, (String.eqb k "data") eqn:E2; try reflexivity.
    apply String.eqb_eq in E1. apply String.eqb_eq in E2. subst k. discriminate E2. }
  split.
  { unfold dict_wf. simpl. repeat constructor; simpl; intuition discriminate. }
  split.
  { unfold dict_wf. simpl. repeat constructor; simpl; intuition discriminate. }
  split.
  { vm_compute. discriminate. }
  split; vm_compute; reflexivity.
Qed.

(** * Further properties of the code *)

(** ** Lists of items filtered by key *)

Lemma dict_keys_filter (f : string -> bool) (d : dict) :
  dict_keys (filter (fun kv => f (fst kv)) d) = filter f (dict_keys d).
Proof.
  unfold dict_keys. induction d as [|[k v] d IH]; simpl; [reflexivity|].
  destruct (f k); simpl; rewrite IH; reflexivity.
Qed.

Lemma filter_keys_twice (f g : string -> bool) (d : dict) :
  (forall k, f k = true -> g k = true) ->
  filter (fun kv => f (fst kv)) (filter (fun kv => g (fst kv)) d)
  = filter (fun kv => f (fst kv)) d.
Proof.
  intros H. induction d as [|[k v] d IH]; simpl; [reflexivity|].
  destruct (g k) eqn:Eg; simpl.
  - rewrite IH. reflexivity.
  - destruct (f k) eqn:Ef; [rewrite (H k Ef) in Eg; discriminate | exact IH].
Qed.

Lemma filter_keys_set_out (f : string -> bool) (k : string) (v : value) (d : dict) :
  f k = false ->
  filter (fun kv => f (fst kv)) (dict_set k v d) = filter (fun kv => f (fst kv)) d.
Proof.
  intros Hk. induction d as [|[k' v'] d IH]; simpl.
  - rewrite Hk. reflexivity.
  - destruct (String.eqb k k') eqn:E; simpl.
    + apply String.eqb_eq in E. subst k'. rewrite Hk. reflexivity.
    + rewrite IH. reflexivity.
Qed.

Lemma filter_keys_set_in (f : string -> bool) (k : string) (v : value) (d : dict) :
  f k = true ->
  filter (fun kv => f (fst kv)) (dict_set k v d)
  = dict_set k v (filter (fun kv => f (fst kv)) d).
Proof.
  intros Hk. induction d as [|[k' v'] d IH]; simpl.
  - rewrite Hk. reflexivity.
  - destruct (String.eqb k k') eqn:E; simpl.
    + apply String.eqb_eq in E. subst k'. rewrite Hk. simpl.
      rewrite String.eqb_refl. reflexivity.
    + destruct (f k') eqn:Ef; simpl; rewrite ?E, IH; reflexivity.
Qed.

Lemma dict_keys_set_present (k : string) (v : value) (d : dict) :
  dict_mem k d = true -> dict_keys (dict_set k v d) = dict_keys d.
Proof.
  unfold dict_mem, dict_keys. induction d as [|[k' v'] d IH]; simpl; [discriminate|].
  destruct (String.eqb k k') eqn:E; simpl; [reflexivity|].
  intros H. rewrite (IH H). reflexivity.
Qed.

Lemma NoDup_filter_keys {A : Type} (f : A -> bool) (l : list A) :
  NoDup l -> NoDup (filter f l).
Proof.
  induction 1 as [|x l Hx _ IH]; simpl; [constructor|].
  destruct (f x); [|exact IH]. constructor; [|exact IH].
  intros Hin. apply filter_In in Hin. destruct Hin. contradiction.
Qed.

(** ** The minimal profile *)

(** X1. Under profile "minimal" the reduction of a mapping never raises:
    it returns the items whose key is one of [incident_id], [frame_id],
    [confidence] and [session_id], each with the value it had and in the
    order the data had them, every other key being absent; reducing the
    result again changes nothing, and data whose keys are distinct gives at
    most four items. *)
Theorem X1_minimal_profile_keeps_essential_fields (d : dict) :
  exists o,
    _optimize_data_for_profile (VDict d) "minimal" = Ok (VDict o)
    /\ (forall k,
          dict_get k o
          = if str_mem k ["incident_id"; "frame_id"; "confidence"; "session_id"]
            then dict_get k d else None)
    /\ dict_keys o
       = filter (fun k => str_mem k ["incident_id"; "frame_id"; "confidence"; "session_id"])
                (dict_keys d)
    /\ _optimize_data_for_profile (VDict o) "minimal" = Ok (VDict o)
    /\ (dict_wf d -> dict_wf o /\ (List.length o <= 4)%nat).
Proof.
  exists (filter (fun kv => str_mem (fst kv) essential_fields) d).
  split; [reflexivity|]. split; [|split; [|split]].
  - intros k. apply (dict_get_filter_keys (fun k => str_mem k essential_fields)).
  - apply (dict_keys_filter (fun k => str_mem k essential_fields)).
  - change (_optimize_data_for_profile (VDict ?x) "minimal")
      with (@Ok value (VDict (filter (fun kv => str_mem (fst kv) essential_fields) x))).
    rewrite (filter_keys_twice (fun k => str_mem k essential_fields)
               (fun k => str_mem k essential_fields)); auto.
  - intros Hwf. unfold dict_wf in *.
    rewrite (dict_keys_filter (fun k => str_mem k essential_fields)).
    pose proof (NoDup_filter_keys (fun k => str_mem k essential_fields) _ Hwf) as Hnd.
    split; [exact Hnd|].
    assert (Hincl : incl (filter (fun k => str_mem k essential_fields) (dict_keys d))
                         essential_fields).
    { intros k Hk. apply filter_In in Hk. apply str_mem_In. apply Hk. }
    pose proof (NoDup_incl_length Hnd Hincl) as Hlen.
    rewrite <- (dict_keys_filter (fun k => str_mem k essential_fields)) in Hlen.
    unfold dict_keys in Hlen. rewrite length_map in Hlen. exact Hlen.
Qed.

(** X2. Reducing under "minimal" what the "standard" reduction returned
    gives what "minimal" gives on the data itself: the fields the standard
    profile drops or rewrites are none of the four the minimal profile
    keeps. *)
Theorem X2_minimal_after_standard (d : dict) (out : value) :
  _optimize_data_for_profile (VDict d) "standard" = Ok out ->
  _optimize_data_for_profile out "minimal" = _optimize_data_for_profile (VDict d) "minimal".
Proof.
  rewrite optimize_standard.
  assert (Hsub : forall k, str_mem k essential_fields = true ->
                           negb (str_mem k excluded_fields) = true).
  { intros k Hk. apply str_mem_In in Hk. simpl in Hk.
    destruct Hk as [<-|[<-|[<-|[<-|[]]]]]; reflexivity. }
  assert (Hmin : forall x,
             _optimize_data_for_profile (VDict x) "minimal"
             = Ok (VDict (filter (fun kv => str_mem (fst kv) essential_fields) x)))
    by reflexivity.
  assert (Hkept : filter (fun kv => str_mem (fst kv) essential_fields) (standard_kept d)
                  = filter (fun kv => str_mem (fst kv) essential_fields) d).
  { unfold standard_kept.
    apply (filter_keys_twice (fun k => str_mem k essential_fields)
             (fun k => negb (str_mem k excluded_fields)) d Hsub). }
  destruct (dict_mem "detection_details" (standard_kept d)).
  - destruct (dict_index _ _) as [details|x]; cbn [bind]; [|discriminate].
    destruct (_compress_detection_details details) as [c|x]; cbn [bind]; [|discriminate].
    intros H. injection H as <-. rewrite !Hmin.
    rewrite (filter_keys_set_out (fun k => str_mem k essential_fields)) by reflexivity.
    rewrite Hkept. reflexivity.
  - intros H. injection H as <-. rewrite !Hmin, Hkept. reflexivity.
Qed.

Lemma X2_minimal_after_standard_witness :
  _optimize_data_for_profile
    (VDict [ ("incident_id", VStr "inc_123");
             ("frame_id", VStr "frame_456");
             ("confidence", flt 94 100);
             ("detection_details", VDict [ ("objects", VList []) ]) ]) "minimal"
  = _optimize_data_for_profile (sample_data [low_confidence_object]) "minimal".
Proof.
  exact (X2_minimal_after_standard (dict_of (sample_data [low_confidence_object])) _
           eq_refl).
Defined.

(** ** The standard profile, once more *)

Lemma standard_kept_mem_details (d : dict) :
  dict_mem "detection_details" (standard_kept d) = dict_mem "detection_details" d.
Proof. unfold dict_mem. rewrite standard_kept_get. reflexivity. Qed.

Lemma standard_kept_twice (d : dict) : standard_kept (standard_kept d) = standard_kept d.
Proof.
  unfold standard_kept.
  apply (filter_keys_twice (fun k => negb (str_mem k excluded_fields))
           (fun k => negb (str_mem k excluded_fields))). auto.
Qed.

Lemma standard_kept_set_details (c : value) (d : dict) :
  standard_kept (dict_set "detection_details" c d)
  = dict_set "detection_details" c (standard_kept d).
Proof.
  unfold standard_kept.
  apply (filter_keys_set_in (fun k => negb (str_mem k excluded_fields))). reflexivity.
Qed.

(** A compressed entry has no [confidence] key, so the loop skips it. *)
Lemma compressed_form_skipped (obj c : value) :
  compressed_form obj c -> compress_object c = Ok None.
Proof.
  intros [o [co [ty [cf [conf [_ [-> [_ [_ [_ [_ [_ [Hkeys _]]]]]]]]]]]]].
  unfold compress_object, dict_get_default.
  destruct (dict_get "confidence" co) as [v|] eqn:E.
  - assert (Hm : dict_mem "confidence" co = true) by (unfold dict_mem; rewrite E; reflexivity).
    destruct (Hkeys _ Hm) as [H|[H|H]]; discriminate H.
  - reflexivity.
Qed.

Lemma compress_objects_all_skipped (l : list value) :
  Forall (fun c => compress_object c = Ok None) l ->
  forall acc, compress_objects l acc = Ok acc.
Proof.
  induction 1 as [|c l Hc _ IH]; intros acc; simpl; [reflexivity|].
  rewrite Hc. simpl. apply IH.
Qed.

Lemma Forall2_right {A B : Type} (R : A -> B -> Prop) (P : B -> Prop) (l : list A)
    (l' : list B) :
  (forall x y, R x y -> P y) -> Forall2 R l l' -> Forall P l'.
Proof. intros H. induction 1; constructor; eauto. Qed.

(** X3. The standard reduction is not idempotent: the entries it writes
    carry [conf] and no [confidence], so reducing its own output again under
    "standard" returns, without raising, an [objects] list that is empty,
    whatever entries the first pass kept. *)
Theorem X3_standard_twice_drops_all_objects
    (d dd : dict) (objs : list value) (out : value) :
  dict_get "detection_details" d = Some (VDict dd) ->
  dict_get "objects" dd = Some (VList objs) ->
  _optimize_data_for_profile (VDict d) "standard" = Ok out ->
  exists o2,
    _optimize_data_for_profile out "standard" = Ok (VDict o2)
    /\ dict_get "detection_details" o2 = Some (VDict [("objects", VList [])]).
Proof.
  intros Hd Hobjs Hout.
  destruct (optimize_standard_details d dd out Hd Hout) as [c [Hc ->]].
  rewrite compress_details_dict, Hobjs in Hc. cbn [py_iter bind] in Hc.
  destruct (compress_objects objs []) as [outs|x] eqn:E; cbn [bind] in Hc; [|discriminate].
  injection Hc as <-.
  destruct (compress_objects_spec objs [] outs E) as [news [-> HF]].
  rewrite optimize_standard, standard_kept_set_details, standard_kept_twice.
  unfold dict_mem, dict_index. rewrite dict_get_set_same. cbn [bind].
  rewrite compress_details_dict. cbn [dict_get String.eqb Ascii.eqb Bool.eqb py_iter bind].
  rewrite (compress_objects_all_skipped news).
  - cbn [bind]. eexists. split; [reflexivity|].
    rewrite dict_pop_set || idtac. apply dict_get_set_same.
  - apply (Forall2_right compressed_form _ _ _ compressed_form_skipped HF).
Qed.

Lemma X3_standard_twice_drops_all_objects_witness :
  exists o2,
    _optimize_data_for_profile
      (VDict [ ("incident_id", VStr "inc_123");
               ("frame_id", VStr "frame_456");
               ("confidence", flt 94 100);
               ("detection_details",
                VDict [ ("objects",
                         VList [ VDict [ ("type", VStr "person");
                                         ("conf", flt 94 100);
                                         ("bbox", VList [VInt 120; VInt 45;
                                                         VInt 180; VInt 155]) ] ]) ]) ])
      "standard" = Ok (VDict o2)
    /\ dict_get "detection_details" o2 = Some (VDict [("objects", VList [])]).
Proof.
  exact (X3_standard_twice_drops_all_objects
           (dict_of (sample_data [sample_object; low_confidence_object]))
           [ ("objects", VList [sample_object; low_confidence_object]) ]
           [sample_object; low_confidence_object] _ eq_refl eq_refl
           ltac:(vm_compute; reflexivity)).
Defined.

(** X4. Under "standard" the reduction never reorders and never adds a
    top-level key: when it returns, the keys of the output are the keys of
    the input without the three excluded names, in the input's order, and
    every value other than [detection_details] is the input's. *)
Theorem X4_standard_keeps_keys_in_order (d : dict) (out : value) :
  _optimize_data_for_profile (VDict d) "standard" = Ok out ->
  exists o,
    out = VDict o
    /\ dict_keys o
       = filter (fun k => negb (str_mem k ["debug_info"; "raw_frame_data";
                                            "processing_metadata"]))
           (dict_keys d)
    /\ (forall k, k <> "detection_details" ->
          dict_get k o
          = if str_mem k ["debug_info"; "raw_frame_data"; "processing_metadata"]
            then None else dict_get k d).
Proof.
  intros H.
  assert (Hk : dict_keys (standard_kept d)
               = filter (fun k => negb (str_mem k excluded_fields)) (dict_keys d))
    by apply (dict_keys_filter (fun k => negb (str_mem k excluded_fields))).
  destruct (optimize_standard_shape d out H) as [o [-> Hget]].
  exists o. split; [reflexivity|]. split.
  - rewrite optimize_standard in H.
    destruct (dict_mem "detection_details" (standard_kept d)) eqn:Hm.
    + destruct (dict_index _ _) as [details|x]; cbn [bind] in H; [|discriminate].
      destruct (_compress_detection_details details) as [c|x]; cbn [bind] in H;
        [|discriminate].
      injection H as <-. rewrite (dict_keys_set_present _ _ _ Hm). exact Hk.
    + injection H as <-. exact Hk.
  - intros k Hne. rewrite (Hget k Hne). apply standard_kept_get.
Qed.

Lemma X4_standard_keeps_keys_in_order_witness :
  exists o,
    VDict [ ("incident_id", VStr "inc_123");
            ("frame_id", VStr "frame_456");
            ("confidence", flt 94 100);
            ("detection_details", VDict [ ("objects", VList []) ]) ] = VDict o
    /\ dict_keys o
       = filter (fun k => negb (str_mem k ["debug_info"; "raw_frame_data";
                                            "processing_metadata"]))
           (dict_keys (dict_of (sample_data [low_confidence_object])))
    /\ (forall k, k <> "detection_details" ->
          dict_get k o
          = if str_mem k ["debug_info"; "raw_frame_data"; "processing_metadata"]
            then None else dict_get k (dict_of (sample_data [low_confidence_object]))).
Proof.
  exact (X4_standard_keeps_keys_in_order
           (dict_of (sample_data [low_confidence_object])) _ eq_refl).
Defined.


(** X6. Under "standard" a [detection_details] that is not a mapping never
    passes through: when it is a string or a list that does not contain
    "objects" it is replaced by the empty mapping, and in every other case
    (a string with "objects" inside, a list holding "objects", [None], a
    number) the reduction raises [TypeError]. *)
Theorem X6_non_mapping_detection_details (d : dict) (v : value) :
  dict_get "detection_details" d = Some v ->
  (forall dd, v <> VDict dd) ->
  _optimize_data_for_profile (VDict d) "standard"
  = match v with
    | VStr s =>
        if str_contains "objects" s then Raise TypeError
        else Ok (VDict (dict_set "detection_details" (VDict []) (standard_kept d)))
    | VList l =>
        if existsb (py_eq (VStr "objects")) l then Raise TypeError
        else Ok (VDict (dict_set "detection_details" (VDict []) (standard_kept d)))
    | _ => Raise TypeError
    end.
Proof.
  intros Hd Hnot. rewrite optimize_standard. unfold dict_mem, dict_index.
  rewrite standard_kept_get. simpl str_mem. cbv iota. rewrite Hd. cbn [bind].
  destruct v as [|b|n|f|s|l|dd]; try reflexivity.
  - unfold _compress_detection_details. cbn [py_contains bind].
    destruct (str_contains "objects" s); reflexivity.
  - unfold _compress_detection_details. cbn [py_contains bind].
    destruct (existsb (py_eq (VStr "objects")) l); reflexivity.
  - exfalso. apply (Hnot dd). reflexivity.
Qed.

Lemma X6_non_mapping_detection_details_witness :
  _optimize_data_for_profile
    (VDict [ ("frame_id", VStr "frame_456"); ("detection_details", VStr "none") ])
    "standard"
  = Ok (VDict [ ("frame_id", VStr "frame_456"); ("detection_details", VDict []) ]).
Proof.
  refine (X6_non_mapping_detection_details
            [ ("frame_id", VStr "frame_456"); ("detection_details", VStr "none") ]
            (VStr "none") eq_refl _).
  intros dd. discriminate.
Defined.

(** ** When the validator answers *)

Lemma validate_payload_non_mapping (self : validator) (now : clock) (payload : value)
    (received : string) (v : verdict) :
  (forall p, payload <> VDict p) ->
  fst (validate_payload self now payload received) <> Ok v.
Proof.
  intros Hnot H.
  assert (Hr : fst (validate_payload self now payload received) = Raise TypeError
               \/ fst (validate_payload self now payload received) = Raise AttributeError).
  { destruct payload as [|b|n|f|s|l|p].
    - left; reflexivity.
    - left; reflexivity.
    - left; reflexivity.
    - left; reflexivity.
    - apply validate_payload_sequence; try reflexivity.
      exists (fun k => str_contains k s). reflexivity.
    - apply validate_payload_sequence; try reflexivity.
      exists (fun k => existsb (py_eq (VStr k)) l). reflexivity.
    - exfalso. apply (Hnot p). reflexivity. }
  rewrite H in Hr. destruct Hr; discriminate.
Qed.


(** ** What the validator reads of the envelope *)

Lemma validate_payload_reads (self : validator) (now : clock) (p p' : dict)
    (received : string) :
  (forall k, k <> "signature" -> dict_get k p' = dict_get k p) ->
  dict_pop "signature" p' = dict_pop "signature" p ->
  validate_payload self now (VDict p') received
  = validate_payload self now (VDict p) received.
Proof.
  intros Hget Hpop.
  assert (H1 : check_required required_fields (VDict p') []
               = check_required required_fields (VDict p) []).
  { rewrite !check_required_dict. unfold required_fields, dict_mem. cbn [filter].
    rewrite !Hget by discriminate. reflexivity. }
  assert (H2 : forall errs, check_timestamp now (VDict p') errs
                            = check_timestamp now (VDict p) errs).
  { intros errs. unfold check_timestamp, py_contains, py_index, dict_mem, dict_index.
    rewrite Hget by discriminate. reflexivity. }
  assert (H3 : forall seen errs, check_replay (VDict p') seen errs
                                 = check_replay (VDict p) seen errs).
  { intros seen errs. unfold check_replay, get_request_id, dict_get_default.
    rewrite Hget by discriminate. reflexivity. }
  assert (H4 : _verify_signature (v_secret_key self) (VDict p') received
               = _verify_signature (v_secret_key self) (VDict p) received).
  { unfold _verify_signature. rewrite Hpop. reflexivity. }
  unfold validate_payload. rewrite H1, H4.
  destruct (check_required required_fields (VDict p) []) as [errs1|x]; [|reflexivity].
  rewrite H2. destruct (check_timestamp now (VDict p) errs1) as [errs2|x]; [|reflexivity].
  rewrite H3. reflexivity.
Qed.

Lemma dict_get_pop_other (k k' : string) (d : dict) :
  k' <> k -> dict_get k' (dict_pop k d) = dict_get k' d.
Proof.
  intros Hne. unfold dict_pop.
  rewrite (dict_get_filter_keys (fun x => negb (String.eqb k x))).
  destruct (String.eqb k k') eqn:E; [|reflexivity].
  apply String.eqb_eq in E. congruence.
Qed.

(** X8. The validator never reads the envelope's own [signature] field:
    the verdict, the exception and the replay set after the call are the same
    whether that field holds the right value, any other value, or is absent.
    Only the [received_signature] argument is compared. *)
Theorem X8_embedded_signature_is_ignored
    (self : validator) (now : clock) (p : dict) (s : value) (received : string) :
  validate_payload self now (VDict (dict_set "signature" s p)) received
  = validate_payload self now (VDict p) received
  /\ validate_payload self now (VDict (dict_pop "signature" p)) received
     = validate_payload self now (VDict p) received.
Proof.
  split; apply validate_payload_reads.
  - intros k Hk. apply dict_get_set_other. exact Hk.
  - apply dict_pop_set.
  - intros k Hk. apply dict_get_pop_other. exact Hk.
  - apply dict_pop_idem.
Qed.

(** ** The received signature *)

Lemma strip_prefix_tag_prefixed (s : string) :
  strip_prefix_tag ("sha256=" ++ s) = strip_prefix_tag s.
Proof.
  unfold strip_prefix_tag, str_replace. destruct s; reflexivity.
Qed.

(** X9. The "sha256=" tag of the received signature is optional: the bare
    Base64 digest and the tagged one give the same result of
    [validate_payload], for every payload and validator. *)
Theorem X9_signature_tag_is_optional
    (self : validator) (now : clock) (payload : value) (digest : string) :
  validate_payload self now payload ("sha256=" ++ digest)
  = validate_payload self now payload digest.
Proof.
  assert (H : _verify_signature (v_secret_key self) payload ("sha256=" ++ digest)
              = _verify_signature (v_secret_key self) payload digest).
  { destruct payload; try reflexivity. unfold _verify_signature.
    change (str_replace "sha256=" EmptyString ("sha256=" ++ digest))
      with (strip_prefix_tag ("sha256=" ++ digest)).
    rewrite strip_prefix_tag_prefixed. reflexivity. }
  unfold validate_payload. rewrite H. reflexivity.
Qed.

(** ** The shape of a signature *)

Lemma round_length (st : list Z) (kw : Z * Z) :
  List.length st = 8%nat -> List.length (SHA256.round st kw) = 8%nat.
Proof.
  intros H. destruct st as [|a [|b [|c [|d [|e [|f [|g [|h [|i r]]]]]]]]];
    try discriminate H. reflexivity.
Qed.

Lemma fold_round_length (kws : list (Z * Z)) :
  forall st, List.length st = 8%nat ->
             List.length (fold_left SHA256.round kws st) = 8%nat.
Proof.
  induction kws as [|kw r IH]; intros st H; simpl; [exact H|].
  apply IH. apply round_length. exact H.
Qed.

Lemma compress_length (h block : list Z) :
  List.length h = 8%nat -> List.length (SHA256.compress h block) = 8%nat.
Proof.
  intros H. unfold SHA256.compress.
  rewrite length_map, length_combine, fold_round_length by exact H. rewrite H. reflexivity.
Qed.

Lemma blocks_length (fuel : nat) :
  forall h ws, List.length h = 8%nat -> List.length (SHA256.blocks fuel h ws) = 8%nat.
Proof.
  induction fuel as [|f IH]; intros h ws H; simpl; [exact H|].
  destruct ws; [exact H|]. apply IH. apply compress_length. exact H.
Qed.

Lemma flat_map_be_bytes_length (l : list Z) :
  List.length (flat_map (SHA256.be_bytes 4) l) = (4 * List.length l)%nat.
Proof.
  induction l as [|x r IH]; [reflexivity|].
  cbn [flat_map]. rewrite length_app, IH. unfold SHA256.be_bytes.
  rewrite length_map, length_rev, length_seq. simpl. lia.
Qed.

(** A digest is thirty-two bytes long, whatever the message. *)
Lemma sha256_length (msg : bytes) : List.length (SHA256.sha256 msg) = 32%nat.
Proof.
  unfold SHA256.sha256. rewrite flat_map_be_bytes_length, blocks_length; reflexivity.
Qed.

Lemma hmac_length (key msg : bytes) : List.length (SHA256.hmac key msg) = 32%nat.
Proof. unfold SHA256.hmac. apply sha256_length. Qed.

Lemma b64encode_length_32 (b : bytes) :
  List.length b = 32%nat ->
  String.length (b64encode b) = 44%nat
  /\ exists body, b64encode b = (body ++ "=")%string /\ String.length body = 43%nat.
Proof.
  intros H.
  do 32 (destruct b as [|? b]; [discriminate H|]).
  destruct b; [|discriminate H].
  split; [reflexivity|].
  eexists (String _ (String _ (String _ (String _ (String _ (String _ (String _ (String _
          (String _ (String _ (String _ (String _ (String _ (String _ (String _ (String _
          (String _ (String _ (String _ (String _ (String _ (String _ (String _ (String _
          (String _ (String _ (String _ (String _ (String _ (String _ (String _ (String _
          (String _ (String _ (String _ (String _ (String _ (String _ (String _ (String _
          (String _ (String _ (String _ EmptyString))))))))))))))))))))))))))))))))))))))))))).
  split; reflexivity.
Qed.

(** X10. Every signature either class computes has one shape, whatever
    the key and the payload: the tag "sha256=", then forty-four ASCII
    characters of Base64 of which the last is the padding "=", fifty-one
    characters in all. *)
Theorem X10_signature_shape (self : builder) (key : string) (payload : dict) :
  (exists body,
     _generate_signature self payload = ("sha256=" ++ body ++ "=")%string
     /\ String.length body = 43%nat)
  /\ String.length (_generate_signature self payload) = 51%nat
  /\ is_ascii (_generate_signature self payload) = true
  /\ (exists body,
        v_generate_signature key payload = ("sha256=" ++ body ++ "=")%string
        /\ String.length body = 43%nat)
  /\ String.length (v_generate_signature key payload) = 51%nat
  /\ is_ascii (v_generate_signature key payload) = true.
Proof.
  assert (H : forall k p,
           (exists body, sign_bytes k p = ("sha256=" ++ body ++ "=")%string
                         /\ String.length body = 43%nat)
           /\ String.length (sign_bytes k p) = 51%nat
           /\ is_ascii (sign_bytes k p) = true).
  { intros k p. unfold sign_bytes.
    destruct (b64encode_length_32 _ (hmac_length (utf8_encode k)
                                       (utf8_encode (json_dumps (VDict p)))))
      as [Hlen [body [Hb Hl]]].
    split; [|split].
    - exists body. rewrite Hb. split; [reflexivity | exact Hl].
    - cbn [append String.length]. rewrite Hlen. reflexivity.
    - apply sign_bytes_ascii. }
  destruct (H (secret_key self) (dict_pop "signature" payload)) as [A [B C]].
  destruct (H key payload) as [D [E F]].
  repeat split; assumption.
Qed.

(** ** The timestamp, written and read back *)

Lemma wall_us_fields (t : DT.datetime) (tz : option Z) :
  DT.wall_us (DT.mk (DT.year t) (DT.month t) (DT.day t) (DT.hour t) (DT.minute t)
                (DT.second t) (DT.microsecond t) tz)
  = DT.wall_us t.
Proof. unfold DT.wall_us. reflexivity. Qed.

(** X11. The timestamp the builder writes for a naive UTC reading [t] of
    the clock ([isoformat] followed by "Z") is read back by the validator's
    parse as the same wall-clock fields with the offset of UTC, so the age
    the validator computes is the time elapsed since [t], whatever the local
    zone of the validating host. *)
Theorem X11_timestamp_read_back (t : DT.datetime) (now off : Z) :
  DT.fields_ok t = true ->
  DT.tzinfo t = None ->
  exists t',
    DT.fromisoformat (str_replace "Z" "+00:00" (DT.isoformat t ++ "Z")) = Ok t'
    /\ DT.tzinfo t' = Some 0
    /\ DT.wall_us t' = DT.wall_us t
    /\ DT.age_us now off t' = now - DT.wall_us t.
Proof.
  intros Hok Htz. rewrite (timestamp_round_trip t Hok Htz).
  eexists. split; [reflexivity|]. split; [reflexivity|].
  split; [apply wall_us_fields|].
  unfold DT.age_us. rewrite wall_us_fields. cbn [DT.tzinfo]. lia.
Qed.

Lemma X11_timestamp_read_back_witness :
  exists t',
    DT.fromisoformat
      (str_replace "Z" "+00:00" (DT.isoformat (utcnow sample_entropy) ++ "Z")) = Ok t'
    /\ DT.tzinfo t' = Some 0
    /\ DT.wall_us t' = DT.wall_us (utcnow sample_entropy)
    /\ DT.age_us (now_utc (sample_clock 10)) 3600000000 t'
       = now_utc (sample_clock 10) - DT.wall_us (utcnow sample_entropy).
Proof.
  exact (X11_timestamp_read_back (utcnow sample_entropy) (now_utc (sample_clock 10))
           3600000000 eq_refl eq_refl).
Defined.

(** ** A created envelope before any validator *)

Lemma signed_envelope_freshness
    (self : builder) (e : entropy) (event_type : string) (d : value) (priority : string)
    (now : clock) :
  DT.fields_ok (utcnow e) = true ->
  DT.tzinfo (utcnow e) = None ->
  freshness_errors now (signed_envelope self e event_type d priority)
  = if 300 * 1000000 <? now_utc now - DT.wall_us (utcnow e)
    then ["Timestamp too old"] else [].
Proof.
  intros Hok Htz. unfold freshness_errors. rewrite signed_envelope_timestamp.
  pose proof (timestamp_round_trip (utcnow e) Hok Htz) as Hrt.
  unfold DT.fromisoformat in Hrt.
  destruct (DT.parse_iso _) as [t|]; [|discriminate]. injection Hrt as ->.
  unfold DT.age_us, max_age_us. rewrite wall_us_fields. cbn [DT.tzinfo].
  replace (now_utc now + 0 - DT.wall_us (utcnow e))
    with (now_utc now - DT.wall_us (utcnow e)) by lia.
  reflexivity.
Qed.

(** X12. The verdict on an envelope [create_payload] returned, presented
    with its own signature to any validator that holds the builder's key, at
    any time: the only reasons it can be refused are age and replay.  The
    errors are "Timestamp too old" when more than 300 s have passed since the
    builder read the clock, then the duplicate error when the replay set
    already holds its request identifier; the identifier is in the set
    after the call in every case, also when the envelope was refused as too
    old. *)
Theorem X12_created_envelope_verdict
    (self : builder) (e : entropy) (v0 : validator) (now : clock)
    (event_type : string) (data : value) (profile priority : string) (payload : value) :
  DT.fields_ok (utcnow e) = true ->
  DT.tzinfo (utcnow e) = None ->
  create_payload self e event_type data profile priority = Ok payload ->
  v_secret_key v0 = secret_key self ->
  exists sig,
    py_index "signature" payload = Ok (VStr sig)
    /\ validate_payload v0 now payload sig
       = (let stale := 300 * 1000000 <? now_utc now - DT.wall_us (utcnow e) in
          let seen := set_mem (VStr (_generate_request_id e)) (processed_requests v0) in
          (Ok {| valid := negb stale && negb seen;
                 errors := (if stale then ["Timestamp too old"] else [])
                           ++ (if seen then [duplicate_error] else []) |},
           {| v_secret_key := secret_key self;
              processed_requests :=
                if seen then processed_requests v0
                else VStr (_generate_request_id e) :: processed_requests v0 |})).
Proof.
  intros Hok Htz Hcreate Hkey.
  destruct (_optimize_data_for_profile data profile) as [d|x] eqn:Hopt.
  - rewrite (create_payload_signed self e event_type d priority data profile Hopt)
      in Hcreate.
    injection Hcreate as <-.
    exists (_generate_signature self (base_payload self e event_type d priority)).
    split; [apply signed_envelope_signature|].
    rewrite validate_payload_dict.
    + unfold all_errors. rewrite Hkey.
      rewrite signed_envelope_structural.
      rewrite (signed_envelope_freshness self e event_type d priority now Hok Htz).
      rewrite signed_envelope_signature_ok.
      unfold replay_errors, replay_set_after. rewrite signed_envelope_request_id.
      cbv zeta.
      destruct (300 * 1000000 <? now_utc now - DT.wall_us (utcnow e));
        destruct (set_mem (VStr (_generate_request_id e)) (processed_requests v0));
        reflexivity.
    + apply signed_envelope_well_typed.
    + apply strip_prefix_tag_ascii. apply sign_bytes_ascii.
  - unfold create_payload in Hcreate. rewrite Hopt in Hcreate. discriminate.
Qed.

Lemma X12_created_envelope_verdict_witness :
  exists sig,
    create_payload sample_builder sample_entropy "incident_detected"
      (VDict [("frame_id", VStr "frame_456"); ("debug_info", VStr "verbose")])
      "minimal" "medium"
    = Ok (VDict (signed_envelope sample_builder sample_entropy "incident_detected"
                   (VDict [("frame_id", VStr "frame_456")]) "medium"))
    /\ py_index "signature"
         (VDict (signed_envelope sample_builder sample_entropy "incident_detected"
                   (VDict [("frame_id", VStr "frame_456")]) "medium")) = Ok (VStr sig)
    /\ fst (validate_payload sample_validator (sample_clock 301)
              (VDict (signed_envelope sample_builder sample_entropy "incident_detected"
                        (VDict [("frame_id", VStr "frame_456")]) "medium")) sig)
       = Ok {| valid := false; errors := ["Timestamp too old"] |}
    /\ processed_requests
         (snd (validate_payload sample_validator (sample_clock 301)
                 (VDict (signed_envelope sample_builder sample_entropy "incident_detected"
                           (VDict [("frame_id", VStr "frame_456")]) "medium")) sig))
       = [VStr "req_1709211909123_89abcdef"].
Proof.
  destruct (X12_created_envelope_verdict sample_builder sample_entropy sample_validator
              (sample_clock 301) "incident_detected"
              (VDict [("frame_id", VStr "frame_456"); ("debug_info", VStr "verbose")])
              "minimal" "medium"
              (VDict (signed_envelope sample_builder sample_entropy "incident_detected"
                        (VDict [("frame_id", VStr "frame_456")]) "medium"))
              eq_refl eq_refl eq_refl eq_refl)
    as [sig [H1 H2]].
  exists sig. split; [reflexivity|]. split; [exact H1|].
  rewrite H2. split; vm_compute; reflexivity.
Defined.

(** ** A signature that cannot be compared *)

(** X13. A received signature that holds a non-ASCII character (after the
    "sha256=" tags are removed) makes [validate_payload] raise [TypeError]
    from the digest comparison, for every well-typed envelope; the comparison
    comes last, so the replay set has already been updated: a non-empty
    request identifier of the envelope is in the set after the failed call. *)
Theorem X13_non_ascii_signature_raises
    (self : validator) (now : clock) (p : dict) (received : string) :
  well_typed (VDict p) = true ->
  is_ascii (strip_prefix_tag received) = false ->
  validate_payload self now (VDict p) received
  = (Raise TypeError,
     {| v_secret_key := v_secret_key self;
        processed_requests := replay_set_after (processed_requests self) p |})
  /\ (forall rid, request_id_of p = VStr rid -> rid <> EmptyString ->
        set_mem (VStr rid)
          (processed_requests (snd (validate_payload self now (VDict p) received)))
        = true).
Proof.
  intros Hw Ha.
  assert (Hv : validate_payload self now (VDict p) received
               = (Raise TypeError,
                  {| v_secret_key := v_secret_key self;
                     processed_requests := replay_set_after (processed_requests self) p |})).
  { destruct (well_typed_dict p Hw) as [Ht Hm].
    unfold validate_payload.
    rewrite check_required_dict, (check_timestamp_dict now p _ Ht),
      (check_replay_dict p _ _ Hm).
    unfold _verify_signature, compare_digest.
    change (str_forall is_ascii_char (str_replace "sha256=" EmptyString received))
      with (is_ascii (strip_prefix_tag received)).
    rewrite Ha, andb_false_r. reflexivity. }
  split; [exact Hv|].
  intros rid Hrid Hne. rewrite Hv. cbn [snd processed_requests].
  unfold replay_set_after. rewrite Hrid, (truthy_nonempty rid Hne). cbn [andb].
  destruct (set_mem (VStr rid) (processed_requests self)) eqn:E; cbn [negb].
  - exact E.
  - apply set_mem_head_str.
Qed.

Lemma X13_non_ascii_signature_raises_witness :
  validate_payload sample_validator (sample_clock 10)
    (envelope_with_id (VStr "req_1")) (String (chr 233) EmptyString)
  = (Raise TypeError,
     {| v_secret_key := "your-webhook-secret-key-here";
        processed_requests := [VStr "req_1"] |}).
Proof.
  exact (proj1 (X13_non_ascii_signature_raises sample_validator (sample_clock 10)
                  (dict_of (envelope_with_id (VStr "req_1")))
                  (String (chr 233) EmptyString) eq_refl eq_refl)).
Defined.

(** ** The errors a verdict can hold *)

Lemma freshness_errors_absent (now : clock) (p : dict) :
  dict_mem "timestamp" p = false -> freshness_errors now p = [].
Proof.
  unfold dict_mem, freshness_errors.
  destruct (dict_get "timestamp" p); [discriminate | reflexivity].
Qed.

Lemma replay_errors_absent (seen : request_set) (p : dict) :
  dict_mem "meta" p = false -> replay_errors seen p = [].
Proof.
  unfold dict_mem, replay_errors, request_id_of, dict_get_default.
  destruct (dict_get "meta" p); [discriminate | reflexivity].
Qed.

(** Three properties of a list of messages, decided by computation. *)
Lemma error_list_check (l vocabulary : list string) :
  nodup string_dec l = l ->
  (List.length l <=? 6)%nat = true ->
  forallb (fun x => str_mem x vocabulary) l = true ->
  NoDup l /\ (List.length l <= 6)%nat /\ forall x, In x l -> In x vocabulary.
Proof.
  intros Hn Hl Hv. split; [|split].
  - rewrite <- Hn. apply NoDup_nodup.
  - apply Nat.leb_le. exact Hl.
  - intros x Hx. rewrite forallb_forall in Hv. specialize (Hv x Hx).
    unfold str_mem in Hv. apply existsb_exists in Hv. destruct Hv as [y [Hy E]].
    apply String.eqb_eq in E. subst y. exact Hy.
Qed.

Lemma all_errors_shape (self : validator) (now : clock) (p : dict) (received : string) :
  NoDup (all_errors self now p received)
  /\ (List.length (all_errors self now p received) <= 6)%nat
  /\ forall x, In x (all_errors self now p received) ->
       In x [ "Missing required field: event"; "Missing required field: timestamp";
              "Missing required field: source"; "Missing required field: data";
              "Missing required field: meta"; "Timestamp too old";
              "Invalid timestamp format"; "Duplicate request ID (replay attack)";
              "Invalid signature" ].
Proof.
  unfold all_errors, structural_errors, required_fields. cbn [filter].
  pose proof (freshness_errors_absent now p) as Hts.
  pose proof (replay_errors_absent (processed_requests self) p) as Hmeta.
  destruct (signature_errors_cases (v_secret_key self) p received) as [-> | ->];
    (destruct (dict_mem "timestamp" p);
     [ destruct (freshness_errors_cases now p) as [-> | [-> | ->]]
     | rewrite (Hts eq_refl) ]);
    (destruct (dict_mem "meta" p);
     [ destruct (replay_errors_cases (processed_requests self) p) as [-> | ->]
     | rewrite (Hmeta eq_refl) ]);
    destruct (dict_mem "event" p); destruct (dict_mem "source" p);
    destruct (dict_mem "data" p);
    apply error_list_check; vm_compute; reflexivity.
Qed.

(** X14. Every verdict [validate_payload] returns holds between zero and
    six errors, none of them twice, each one of nine fixed messages: the five
    missing-field messages, the two timestamp messages, the duplicate message
    and the signature message.  (A missing [timestamp] rules out the
    timestamp messages, a missing [meta] the duplicate message.) *)
Theorem X14_error_vocabulary
    (self : validator) (now : clock) (payload : value) (received : string) (v : verdict) :
  fst (validate_payload self now payload received) = Ok v ->
  NoDup (errors v)
  /\ (List.length (errors v) <= 6)%nat
  /\ forall x, In x (errors v) ->
       In x [ "Missing required field: event"; "Missing required field: timestamp";
              "Missing required field: source"; "Missing required field: data";
              "Missing required field: meta"; "Timestamp too old";
              "Invalid timestamp format"; "Duplicate request ID (replay attack)";
              "Invalid signature" ].
Proof.
  intros Hv. destruct payload as [|b|n|f|s|l|p];
    try (exfalso; refine (validate_payload_non_mapping _ _ _ _ _ _ Hv);
         intros p; discriminate).
  destruct (validate_payload_ok_inv self now p received v Hv) as [Hw Ha].
  rewrite (validate_payload_dict self now p received Hw Ha) in Hv.
  injection Hv as <-. cbn [errors]. apply all_errors_shape.
Qed.

(** The empty mapping with a wrong signature reaches the bound. *)
Lemma X14_error_vocabulary_witness :
  fst (validate_payload sample_validator (sample_clock 10) (VDict []) bogus_signature)
  = Ok {| valid := false;
          errors := [ "Missing required field: event"; "Missing required field: timestamp";
                      "Missing required field: source"; "Missing required field: data";
                      "Missing required field: meta"; "Invalid signature" ] |}
  /\ (List.length
        [ "Missing required field: event"; "Missing required field: timestamp";
          "Missing required field: source"; "Missing required field: data";
          "Missing required field: meta"; "Invalid signature" ] <= 6)%nat.
Proof.
  split; [vm_compute; reflexivity|].
  exact (proj1 (proj2 (X14_error_vocabulary sample_validator (sample_clock 10) (VDict [])
                         bogus_signature _ ltac:(vm_compute; reflexivity)))).
Defined.

(** ** What a valid verdict guarantees *)




(** ** The replay set over a run of calls *)

Ltac unchanged_set :=
  cbn [snd]; split; [auto | split; [auto | lia]].

Lemma check_replay_adds (payload : value) (seen : request_set) (errs : list string) :
  (forall x, In x seen -> In x (snd (check_replay payload seen errs)))
  /\ (forall x, In x (snd (check_replay payload seen errs)) ->
        In x seen
        \/ exists p, payload = VDict p /\ request_id_of p = x /\ truthy x = true)
  /\ (List.length (snd (check_replay payload seen errs)) <= S (List.length seen))%nat.
Proof.
  unfold check_replay, get_request_id.
  destruct payload as [|b|n|f|s|l|p]; try solve [unchanged_set].
  destruct (dict_get_default "meta" (VDict []) p) as [|b|n|f|s|l|m] eqn:Em;
    try solve [unchanged_set].
  set (r := dict_get_default "request_id" VNone m).
  destruct (truthy r) eqn:Htr; [|unchanged_set].
  destruct (hashable r); [|unchanged_set].
  destruct (set_mem r seen) eqn:Hmem; cbn [snd]; [unchanged_set|].
  unfold set_add. rewrite Hmem. split; [|split].
  - intros x Hx. right. exact Hx.
  - intros x [Hx|Hx]; [|left; exact Hx]. right. exists p. subst x.
    split; [reflexivity|].
    split; [unfold request_id_of; rewrite Em; reflexivity | exact Htr].
  - simpl. lia.
Qed.

Lemma validate_payload_adds (self : validator) (now : clock) (payload : value)
    (received : string) :
  (forall x, In x (processed_requests self) ->
             In x (processed_requests (snd (validate_payload self now payload received))))
  /\ (forall x, In x (processed_requests (snd (validate_payload self now payload received))) ->
        In x (processed_requests self)
        \/ exists p, payload = VDict p /\ request_id_of p = x /\ truthy x = true)
  /\ (List.length (processed_requests (snd (validate_payload self now payload received)))
      <= S (List.length (processed_requests self)))%nat.
Proof.
  destruct (validate_payload_state self now payload received) as [-> | [errs ->]].
  - split; [auto | split; [auto | lia]].
  - cbn [processed_requests]. apply check_replay_adds.
Qed.

(** X16. Over any run of calls, whatever each one returned or raised, the
    validator keeps its key, never forgets a request identifier, adds at most
    one identifier per call, and holds nothing but what it started with and
    truthy request identifiers of the mappings it was presented. *)
Theorem X16_replay_set_provenance (calls : list call) (self : validator) :
  v_secret_key (run_calls self calls) = v_secret_key self
  /\ (forall x, In x (processed_requests self) ->
                In x (processed_requests (run_calls self calls)))
  /\ (forall x, In x (processed_requests (run_calls self calls)) ->
        In x (processed_requests self)
        \/ exists c p, In c calls /\ call_payload c = VDict p
                       /\ request_id_of p = x /\ truthy x = true)
  /\ (List.length (processed_requests (run_calls self calls))
      <= List.length (processed_requests self) + List.length calls)%nat.
Proof.
  split; [apply run_calls_key|].
  revert self. induction calls as [|c r IH]; intros self.
  - cbn. split; [auto | split; [auto | lia]].
  - change (run_calls self (c :: r))
      with (run_calls (snd (validate_payload self (call_clock c) (call_payload c)
                              (call_signature c))) r).
    destruct (IH (snd (validate_payload self (call_clock c) (call_payload c)
                         (call_signature c)))) as [I1 [I2 I3]].
    destruct (validate_payload_adds self (call_clock c) (call_payload c)
                (call_signature c)) as [A1 [A2 A3]].
    split; [|split].
    + intros x Hx. apply I1, A1, Hx.
    + intros x Hx. destruct (I2 x Hx) as [H|[c' [p [Hc' H]]]].
      * destruct (A2 x H) as [H'|[p [Hp H']]]; [left; exact H'|].
        right. exists c, p. split; [left; reflexivity|]. split; [exact Hp | exact H'].
      * right. exists c', p. split; [right; exact Hc' | exact H].
    + cbn [List.length]. lia.
Qed.

(** ** Request identifiers *)

Lemma append_assoc_one (a : string) (c : ascii) (b : string) :
  ((a ++ String c EmptyString) ++ b)%string = (a ++ String c b)%string.
Proof. induction a as [|x a IH]; simpl; [reflexivity | rewrite IH; reflexivity]. Qed.

Lemma str_length_app (a b : string) :
  String.length (a ++ b) = (String.length a + String.length b)%nat.
Proof. induction a as [|x a IH]; simpl; [reflexivity | rewrite IH; reflexivity]. Qed.

(** The digits [str] writes: all decimal, at least one, and read back by
    [int] as the number. *)
Lemma digits_acc_spec (f : nat) :
  forall n acc,
    0 <= n < 2 ^ Z.of_nat (S f) ->
    exists ds,
      digits_acc (S f) n acc = (ds ++ acc)%string
      /\ str_forall is_digit ds = true
      /\ ds <> EmptyString
      /\ forall b a t,
           int_digits b a (ds ++ t)
           = int_digits true (a * 10 ^ Z.of_nat (String.length ds) + n) t.
Proof.
  induction f as [|f IH]; intros n acc Hn.
  - assert (Hlt : (n <? 10) = true) by (apply Z.ltb_lt; change (2 ^ Z.of_nat 1) with 2 in Hn; lia).
    cbn [digits_acc]. rewrite Hlt.
    exists (String (digit_char (n mod 10)) EmptyString).
    assert (Hm : n mod 10 = n) by (apply Z.mod_small; apply Z.ltb_lt in Hlt; lia).
    split; [reflexivity|]. split.
    + cbn [str_forall]. rewrite digit_char_is_digit by apply mod10_range. reflexivity.
    + split; [discriminate|]. intros b a t. cbn [append int_digits String.length].
      rewrite digit_char_is_digit, digit_char_val by apply mod10_range.
      rewrite Hm. f_equal. change (10 ^ Z.of_nat 1) with 10. lia.
  - cbn [digits_acc]. destruct (n <? 10) eqn:Hlt.
    + exists (String (digit_char (n mod 10)) EmptyString).
      assert (Hm : n mod 10 = n) by (apply Z.mod_small; apply Z.ltb_lt in Hlt; lia).
      split; [reflexivity|]. split.
      * cbn [str_forall]. rewrite digit_char_is_digit by apply mod10_range. reflexivity.
      * split; [discriminate|]. intros b a t. cbn [append int_digits String.length].
        rewrite digit_char_is_digit, digit_char_val by apply mod10_range.
        rewrite Hm. f_equal. change (10 ^ Z.of_nat 1) with 10. lia.
    + apply Z.ltb_ge in Hlt.
      assert (Hq : 0 <= n / 10 < 2 ^ Z.of_nat (S f)).
      { split; [apply Z.div_pos; lia|].
        apply Z.div_lt_upper_bound; [lia|].
        replace (2 ^ Z.of_nat (S (S f))) with (2 * 2 ^ Z.of_nat (S f)) in Hn
          by (rewrite (Nat2Z.inj_succ (S f)), Z.pow_succ_r by lia; reflexivity).
        lia. }
      destruct (IH (n / 10) (String (digit_char (n mod 10)) acc) Hq)
        as [ds [Heq [Hd [Hne Hval]]]].
      exists (ds ++ String (digit_char (n mod 10)) EmptyString)%string.
      split; [|split; [|split]].
      * rewrite append_assoc_one. exact Heq.
      * rewrite str_forall_app, Hd. cbn [str_forall].
        rewrite digit_char_is_digit by apply mod10_range. reflexivity.
      * destruct ds; discriminate.
      * intros b a t. rewrite append_assoc_one, Hval. cbn [int_digits].
        rewrite digit_char_is_digit, digit_char_val by apply mod10_range.
        f_equal. rewrite str_length_app. cbn [String.length].
        rewrite Nat2Z.inj_add. change (Z.of_nat 1) with 1.
        rewrite Z.pow_add_r by lia. change (10 ^ 1) with 10.
        pose proof (Z.div_mod n 10 ltac:(lia)). lia.
Qed.

Lemma append_nil_r (s : string) : (s ++ EmptyString)%string = s.
Proof. induction s as [|c s IH]; simpl; [reflexivity | rewrite IH; reflexivity]. Qed.

Lemma str_of_nonneg_spec (n : Z) :
  0 <= n ->
  str_forall is_digit (str_of_nonneg n) = true
  /\ str_of_nonneg n <> EmptyString
  /\ int_digits false 0 (str_of_nonneg n) = Some n.
Proof.
  intros Hn. unfold str_of_nonneg.
  assert (Hb : 0 <= n < 2 ^ Z.of_nat (S (Z.to_nat (Z.log2 n)))).
  { split; [exact Hn|]. rewrite Nat2Z.inj_succ, Z2Nat.id by apply Z.log2_nonneg.
    destruct (Z.eq_dec n 0) as [->|Hz]; [reflexivity|].
    apply Z.log2_spec. lia. }
  destruct (digits_acc_spec _ n EmptyString Hb) as [ds [Heq [Hd [Hne Hval]]]].
  rewrite Heq, append_nil_r. split; [exact Hd|]. split; [exact Hne|].
  specialize (Hval false 0 EmptyString). rewrite append_nil_r in Hval.
  rewrite Hval. reflexivity.
Qed.

Lemma str_of_nonneg_inj (a b : Z) :
  0 <= a -> 0 <= b -> str_of_nonneg a = str_of_nonneg b -> a = b.
Proof.
  intros Ha Hb E.
  destruct (str_of_nonneg_spec a Ha) as [_ [_ Va]].
  destruct (str_of_nonneg_spec b Hb) as [_ [_ Vb]].
  rewrite E in Va. congruence.
Qed.

(** Digits in front of an underscore: where the digits end is determined. *)
Lemma digits_then_underscore (a : string) :
  forall b u v,
    str_forall is_digit a = true -> str_forall is_digit b = true ->
    (a ++ String "_" u)%string = (b ++ String "_" v)%string ->
    a = b /\ u = v.
Proof.
  induction a as [|c a IH]; intros b u v Ha Hb E.
  - destruct b as [|c' b].
    + injection E as ->. auto.
    + cbn [append] in E. injection E as <- _. cbn [str_forall] in Hb. discriminate Hb.
  - destruct b as [|c' b].
    + cbn [append] in E. injection E as -> _. cbn [str_forall] in Ha. discriminate Ha.
    + cbn [append] in E. injection E as <- E. cbn [str_forall] in Ha, Hb.
      apply andb_prop in Ha. apply andb_prop in Hb.
      destruct (IH b u v (proj2 Ha) (proj2 Hb) E) as [-> ->]. auto.
Qed.

(** X17. Request identifiers: for clock readings at or after the epoch,
    two identifiers [_generate_request_id] builds are equal exactly when the
    millisecond readings are equal and the first eight characters of the two
    UUID strings are equal; and an identifier is never the empty string, so
    a validator always counts it as present. *)
Theorem X17_request_id_identifies (e1 e2 : entropy) :
  0 <= time_ms e1 ->
  0 <= time_ms e2 ->
  (_generate_request_id e1 = _generate_request_id e2
   <-> time_ms e1 = time_ms e2
       /\ str_take 8 (uuid_str e1) = str_take 8 (uuid_str e2))
  /\ truthy (VStr (_generate_request_id e1)) = true.
Proof.
  intros H1 H2. split; [|reflexivity]. unfold _generate_request_id. split.
  - intros E. apply append_inj_l in E.
    unfold str_of_Z in E.
    replace (time_ms e1 <? 0) with false in E by (symmetry; apply Z.ltb_ge; exact H1).
    replace (time_ms e2 <? 0) with false in E by (symmetry; apply Z.ltb_ge; exact H2).
    destruct (str_of_nonneg_spec _ H1) as [D1 _].
    destruct (str_of_nonneg_spec _ H2) as [D2 _].
    destruct (digits_then_underscore _ _ _ _ D1 D2 E) as [Ed Eu].
    split; [apply str_of_nonneg_inj; assumption | exact Eu].
  - intros [-> ->]. reflexivity.
Qed.

Lemma X17_request_id_identifies_witness :
  _generate_request_id sample_entropy
  = _generate_request_id
      {| utcnow := DT.mk 2024 2 29 13 5 9 123999 None;
         uuid_hex := "ffffffffffffffffffffffffffffffff";
         time_ms := 1709211909123;
         uuid_str := "89abcdef-ffff-4fff-8fff-ffffffffffff" |}.
Proof.
  refine (proj2 (proj1 (X17_request_id_identifies sample_entropy _ _ _)) (conj eq_refl eq_refl));
    vm_compute; discriminate.
Defined.

(** ** The size of what is signed *)

Lemma fold_join_acc (sep : string) (l : list string) :
  forall a b,
    fold_left (fun acc y => acc ++ sep ++ y)%string l (a ++ b)%string
    = (a ++ fold_left (fun acc y => acc ++ sep ++ y)%string l b)%string.
Proof.
  induction l as [|x l IH]; intros a b; cbn [fold_left]; [reflexivity|].
  rewrite <- IH. f_equal.
  induction a as [|c a IHa]; cbn [append]; [reflexivity | rewrite IHa; reflexivity].
Qed.

Lemma str_join_cons (sep x y : string) (l : list string) :
  str_join sep (x :: y :: l) = (x ++ sep ++ str_join sep (y :: l))%string.
Proof.
  unfold str_join. cbn [fold_left].
  rewrite (fold_join_acc sep l x (sep ++ y)).
  rewrite (fold_join_acc sep l sep y). reflexivity.
Qed.

Lemma str_join_length_cons (sep x : string) (l : list string) :
  String.length (str_join sep (x :: l))
  = (String.length x
     + match l with
       | [] => 0
       | _ => String.length sep + String.length (str_join sep l)
       end)%nat.
Proof.
  destruct l as [|y l].
  - cbn. lia.
  - rewrite str_join_cons, !str_length_app. reflexivity.
Qed.

Lemma str_join_filter_length (sep : string) (g : string * value -> string)
    (h : string * value -> bool) (d : dict) :
  (String.length (str_join sep (map g (filter h d)))
   <= String.length (str_join sep (map g d)))%nat.
Proof.
  induction d as [|a d IH]; [apply Nat.le_refl|].
  cbn [filter map]. destruct (h a).
  - cbn [map]. rewrite !str_join_length_cons.
    destruct (map g (filter h d)) as [|y l] eqn:E.
    + lia.
    + destruct (map g d) as [|y' l'] eqn:E'.
      * destruct d; [discriminate E | discriminate E'].
      * lia.
  - rewrite str_join_length_cons.
    destruct (map g d) as [|y' l'] eqn:E'.
    + destruct d; [cbn; lia | discriminate E'].
    + lia.
Qed.

Lemma json_dumps_filter_length (h : string * value -> bool) (d : dict) :
  (String.length (json_dumps (VDict (filter h d)))
   <= String.length (json_dumps (VDict d)))%nat.
Proof.
  cbn [json_dumps]. rewrite !str_length_app.
  pose proof (str_join_filter_length ","
                (fun kv => json_str (fst kv) ++ ":" ++ json_dumps (snd kv))%string h d).
  cbn [String.length]. lia.
Qed.

Lemma str_join_length (sep : string) (l : list string) :
  String.length (str_join sep l)
  = (fold_right (fun s n => String.length s + n) 0 l
     + String.length sep * Nat.pred (List.length l))%nat.
Proof.
  induction l as [|x l IH]; [cbn; lia|].
  rewrite str_join_length_cons. destruct l as [|y l]; [cbn; lia|].
  rewrite IH. cbn [fold_right List.length Nat.pred].
  rewrite (Nat.mul_succ_r (String.length sep) (List.length l)). lia.
Qed.

Lemma str_join_replace_length (sep x x' : string) (l1 l2 : list string) :
  (String.length x <= String.length x')%nat ->
  (String.length (str_join sep (l1 ++ x :: l2))
   <= String.length (str_join sep (l1 ++ x' :: l2)))%nat.
Proof.
  intros H. rewrite !str_join_length, !length_app. cbn [List.length].
  apply Nat.add_le_mono_r.
  induction l1 as [|y l1 IH]; cbn [app fold_right]; lia.
Qed.

Lemma json_dumps_item_length (l1 l2 : dict) (k : string) (x x' : value) :
  (String.length (json_dumps x) <= String.length (json_dumps x'))%nat ->
  (String.length (json_dumps (VDict (l1 ++ (k, x) :: l2)))
   <= String.length (json_dumps (VDict (l1 ++ (k, x') :: l2))))%nat.
Proof.
  intros H. cbn [json_dumps]. rewrite !str_length_app, !map_app. cbn [map fst snd].
  apply Nat.add_le_mono_l. apply Nat.add_le_mono_r.
  apply str_join_replace_length. rewrite !str_length_app. lia.
Qed.

Lemma base_payload_length (self : builder) (e : entropy) (event_type : string)
    (d d' : value) (priority : string) :
  (String.length (json_dumps d) <= String.length (json_dumps d'))%nat ->
  (String.length (json_dumps (VDict (base_payload self e event_type d priority)))
   <= String.length (json_dumps (VDict (base_payload self e event_type d' priority))))%nat.
Proof.
  intros H.
  exact (json_dumps_item_length
           [ ("event", VStr event_type);
             ("timestamp", VStr (DT.isoformat (utcnow e) ++ "Z"));
             ("source", VDict [ ("system", VStr (system_name self));
                                ("version", VStr (version self));
                                ("instance_id",
                                 VStr (system_name self ++ "-"
                                       ++ str_take 8 (uuid_hex e))) ]) ]
           [ ("meta", VDict [ ("request_id", VStr (_generate_request_id e));
                              ("priority", VStr priority);
                              ("schema_version", VStr "1.0.0") ]) ]
           "data" d d' H).
Qed.

(** X18. For the same readings of the clock and of the random source, the
    bytes signed for a mapping under profile "minimal" are never more than
    the bytes signed for it under "detailed": the compact serialization of
    the minimal data is no longer than that of the data, and so is that of
    the envelope without its signature. *)
Theorem X18_minimal_is_never_longer
    (self : builder) (e : entropy) (event_type : string) (d : dict) (priority : string) :
  exists m f,
    create_payload self e event_type (VDict d) "minimal" priority = Ok (VDict m)
    /\ create_payload self e event_type (VDict d) "detailed" priority = Ok (VDict f)
    /\ (forall x, dict_get "data" m = Some x ->
          (String.length (json_dumps x) <= String.length (json_dumps (VDict d)))%nat)
    /\ (String.length (json_dumps (VDict (dict_pop "signature" m)))
        <= String.length (json_dumps (VDict (dict_pop "signature" f))))%nat.
Proof.
  unfold create_payload. cbn [_optimize_data_for_profile String.eqb Ascii.eqb Bool.eqb bind].
  eexists. eexists. split; [reflexivity|]. split; [reflexivity|]. split.
  - intros x Hx. rewrite dict_get_set_other in Hx by discriminate.
    cbn in Hx. injection Hx as <-. apply json_dumps_filter_length.
  - rewrite !dict_pop_set, !base_payload_pop.
    apply base_payload_length. apply json_dumps_filter_length.
Qed.
